(** * jasmin.queues.factory : the AMQP client factory

    A shallow embedding of [AmqpFactory] (src/jasmin/queues/factory.py) and
    the properties of its reconnection policy, its queue-declaration cache
    and its publish guard.

    The factory is a Python object whose methods run on the Twisted reactor
    thread, one at a time.  A method is embedded as a function in a small
    state-and-exception monad over a [World]: the factory's attributes, the
    store of [Deferred] objects, the reactor's delayed calls and the trace of
    calls made to collaborators (logger, reactor, connector, AMQP client and
    channel). *)

From Stdlib Require Import NArith ZArith String List Lia.
From stdpp Require Import base option list gmap strings.

Local Open Scope string_scope.
Local Open Scope N_scope.
Local Open Scope list_scope.

(** ** Values and collaborators *)

(** Python exceptions the factory's own statements can raise.  [Stuck] is
    not a Python exception: it marks a reference outside the stores, which
    no history of calls produces (see [reachable_never_stuck]). *)
Inductive Exn : Type :=
| AttributeError
| AlreadyCalledError       (* twisted.internet.defer *)
| AlreadyCancelled         (* twisted.internet.error, from DelayedCall.cancel *)
| AlreadyCalled            (* twisted.internet.error, from DelayedCall.cancel *)
| KeyError
| Stuck.

(** Keyword-argument values handed through to the channel. *)
Inductive PyArg : Type :=
| PStr (s : string)
| PInt (z : Z)
| PBool (b : bool)
| PNone.

Abbreviation Kwargs := (gmap string PyArg).

(** Identities of objects owned by Twisted or txamqp. *)
Abbreviation Connector := nat.
Abbreviation Client := nat.
Abbreviation Channel := nat.
Abbreviation dref := nat.      (* a reference into the store of deferreds *)
Abbreviation tref := nat.      (* a reference to a delayed call of the reactor *)

(** What a [Deferred] can carry as its result. *)
Inductive Value : Type :=
| VSelf                          (* the factory itself *)
| VNone
| VFailure (reason : string)     (* a Failure, by its [str()] *)
| VRaised (e : Exn)              (* a Failure wrapping an exception of a callback *)
| VLambdaPreConnect.             (* the function [lambda _: self.preConnect()] *)

(** Callbacks the factory itself registers on its deferreds. *)
Inductive Callback : Type :=
| CbAuthenticate.

(** A [Deferred] is waiting with its callback chain, or has been called and
    holds its result (a called deferred has run and dropped its chain). *)
Inductive Deferred : Type :=
| Pending (callbacks : list Callback)
| Fired (result : Value).

Definition called (d : Deferred) : bool :=
  match d with
  | Pending _ => false
  | Fired _ => true
  end.

(** A [DelayedCall] of the reactor; every one this factory creates targets
    [self.reConnect] with the connector as its argument. *)
Record DelayedCall : Type := mkDelayedCall {
  dc_delay : N;
  dc_arg : option Connector;
  dc_cancelled : bool;
  dc_called : bool
}.

Definition active (t : DelayedCall) : bool :=
  negb (dc_cancelled t || dc_called t).

Inductive Level : Type := LInfo | LError | LDebug.

(** Arguments of a log record. *)
Inductive LogArg : Type :=
| LStr (s : string)
| LInt (z : Z)
| LDict (k : Kwargs).

(** Calls that leave the factory. *)
Inductive Event : Type :=
| EvLog (lvl : Level) (msg : string) (args : list LogArg)
| EvConnectTCP (host : string) (port : Z)
| EvConnectorConnect (c : Connector)
| EvCallLater (delay : N) (c : option Connector) (t : tref)
| EvTimerCancel (t : tref)
| EvClientStart (cl : Client) (login password : string)
| EvClientChannel (cl : Client) (id : Z)
| EvClientClose (cl : Client) (reason : option string)
| EvChannelOpen (ch : Channel)
| EvQueueDeclare (ch : Channel) (args : list PyArg) (keys : Kwargs)
| EvBasicPublish (ch : Channel) (args : Kwargs)
| EvFire (d : dref) (v : Value).   (* a deferred called: what its observers see *)

(** What a method returns. *)
Inductive Ret : Type :=
| RNone
| RDeferred (d : dref)
| RProtocol (p : Client)
| RExternal (call : Event).      (* whatever the collaborator's call returned *)

(** ** The factory object *)

Record Config : Type := mkConfig {
  host : string;
  port : Z;
  username : string;
  password : string;
  reconnectOnConnectionFailureDelay : N
}.

(** [self.channelReady] holds [None], [False] or a Deferred. *)
Inductive ChannelReady : Type :=
| CRNone
| CRFalse
| CRDeferred (d : dref).

(** The attributes.  [exitDeferred], [connectDeferred], [chan] and [retries]
    are not assigned by [__init__]: [None] stands for an attribute that does
    not exist yet, and reading it raises [AttributeError].  For
    [reconnectTimer] and [client], [None] is Python's [None]. *)
Record Factory : Type := mkFactory {
  reconnectTimer : option tref;
  connectionRetry : bool;
  connected : bool;
  config : Config;
  channelReady : ChannelReady;
  client : option Client;
  queues : list string;
  exitDeferred : option dref;
  connectDeferred : option dref;
  chan : option Channel;
  retries : option N
}.

Record World : Type := mkWorld {
  fac : Factory;
  heap : list Deferred;
  reactor : list DelayedCall;
  trace : list Event
}.

Definition MAX_RETRIES : N := 5.

(** ** The monad *)

Inductive Result (A : Type) : Type :=
| Ok (a : A)
| Raise (e : Exn).
Arguments Ok {A} a.
Arguments Raise {A} e.

Definition M (A : Type) : Type := World -> Result A * World.

Definition ret {A} (a : A) : M A := fun w => (Ok a, w).
Definition raise {A} (e : Exn) : M A := fun w => (Raise e, w).
Definition bind {A B} (m : M A) (k : A -> M B) : M B :=
  fun w => match m w with
           | (Ok a, w') => k a w'
           | (Raise e, w') => (Raise e, w')
           end.

#[global] Instance M_ret : MRet M := @ret.
#[global] Instance M_bind : MBind M := fun A B k m => bind m k.

Definition get_fac : M Factory := fun w => (Ok (fac w), w).
Definition upd_fac (f : Factory -> Factory) : M unit :=
  fun w => (Ok tt, mkWorld (f (fac w)) (heap w) (reactor w) (trace w)).
Definition emit (e : Event) : M unit :=
  fun w => (Ok tt, mkWorld (fac w) (heap w) (reactor w) (trace w ++ [e])).

(** Attribute assignments. *)
Definition set_reconnectTimer (v : option tref) (f : Factory) : Factory :=
  mkFactory v (connectionRetry f) (connected f) (config f) (channelReady f)
    (client f) (queues f) (exitDeferred f) (connectDeferred f) (chan f) (retries f).
Definition set_connectionRetry (v : bool) (f : Factory) : Factory :=
  mkFactory (reconnectTimer f) v (connected f) (config f) (channelReady f)
    (client f) (queues f) (exitDeferred f) (connectDeferred f) (chan f) (retries f).
Definition set_connected (v : bool) (f : Factory) : Factory :=
  mkFactory (reconnectTimer f) (connectionRetry f) v (config f) (channelReady f)
    (client f) (queues f) (exitDeferred f) (connectDeferred f) (chan f) (retries f).
Definition set_channelReady (v : ChannelReady) (f : Factory) : Factory :=
  mkFactory (reconnectTimer f) (connectionRetry f) (connected f) (config f) v
    (client f) (queues f) (exitDeferred f) (connectDeferred f) (chan f) (retries f).
Definition set_client (v : option Client) (f : Factory) : Factory :=
  mkFactory (reconnectTimer f) (connectionRetry f) (connected f) (config f)
    (channelReady f) v (queues f) (exitDeferred f) (connectDeferred f) (chan f)
    (retries f).
Definition set_queues (v : list string) (f : Factory) : Factory :=
  mkFactory (reconnectTimer f) (connectionRetry f) (connected f) (config f)
    (channelReady f) (client f) v (exitDeferred f) (connectDeferred f) (chan f)
    (retries f).
Definition set_exitDeferred (v : option dref) (f : Factory) : Factory :=
  mkFactory (reconnectTimer f) (connectionRetry f) (connected f) (config f)
    (channelReady f) (client f) (queues f) v (connectDeferred f) (chan f) (retries f).
Definition set_connectDeferred (v : option dref) (f : Factory) : Factory :=
  mkFactory (reconnectTimer f) (connectionRetry f) (connected f) (config f)
    (channelReady f) (client f) (queues f) (exitDeferred f) v (chan f) (retries f).
Definition set_chan (v : option Channel) (f : Factory) : Factory :=
  mkFactory (reconnectTimer f) (connectionRetry f) (connected f) (config f)
    (channelReady f) (client f) (queues f) (exitDeferred f) (connectDeferred f) v
    (retries f).
Definition set_retries (v : option N) (f : Factory) : Factory :=
  mkFactory (reconnectTimer f) (connectionRetry f) (connected f) (config f)
    (channelReady f) (client f) (queues f) (exitDeferred f) (connectDeferred f)
    (chan f) v.

(** Reading an attribute that [__init__] does not create. *)
Definition attr {A} (proj : Factory -> option A) : M A :=
  f ← get_fac;
  match proj f with
  | Some a => ret a
  | None => raise AttributeError
  end.

(** ** Deferreds (twisted.internet.defer) *)

Definition new_deferred : M dref :=
  fun w => (Ok (length (heap w)),
            mkWorld (fac w) (heap w ++ [Pending []]) (reactor w) (trace w)).

Definition lookup_deferred (d : dref) : M Deferred :=
  fun w => match heap w !! d with
           | Some x => (Ok x, w)
           | None => (Raise Stuck, w)
           end.

Definition store_deferred (d : dref) (x : Deferred) : M unit :=
  fun w => (Ok tt, mkWorld (fac w) (<[d:=x]> (heap w)) (reactor w) (trace w)).

Definition is_failure (v : Value) : bool :=
  match v with
  | VFailure _ | VRaised _ => true
  | _ => false
  end.

(** [authenticate]: starts the AMQP login on the protocol instance.  The
    deferred that [client.start] returns belongs to txamqp; its callbacks
    [_authenticated] and [_authentication_failed] are run by the caller of
    the handshake. *)
Definition authenticate (ignore : Value) : M Ret :=
  f ← get_fac;
  match client f with
  | None => raise AttributeError
  | Some cl =>
      emit (EvClientStart cl (username (config f)) (password (config f)));;
      mret RNone
  end.

(** One link of a callback chain: the callback on a value, the pass-through
    errback on a Failure; an exception of the callback becomes a Failure. *)
Definition run_callback (cb : Callback) (v : Value) : M Value :=
  match cb with
  | CbAuthenticate =>
      if is_failure v then mret v
      else fun w => match authenticate v w with
                    | (Ok _, w') => (Ok VNone, w')
                    | (Raise e, w') => (Ok (VRaised e), w')
                    end
  end.

Fixpoint run_callbacks (cbs : list Callback) (v : Value) : M Value :=
  match cbs with
  | [] => mret v
  | cb :: rest => v' ← run_callback cb v; run_callbacks rest v'
  end.

(** [Deferred.callback] and [Deferred.errback]. *)
Definition fire (d : dref) (v : Value) : M unit :=
  x ← lookup_deferred d;
  match x with
  | Fired _ => raise AlreadyCalledError
  | Pending cbs =>
      emit (EvFire d v);;
      store_deferred d (Fired v);;
      v' ← run_callbacks cbs v;
      store_deferred d (Fired v')
  end.

Definition d_callback (d : dref) (v : Value) : M unit := fire d v.
Definition d_errback (d : dref) (reason : string) : M unit := fire d (VFailure reason).

(** [Deferred.addCallback]: queued on a waiting deferred, run at once on a
    called one. *)
Definition addCallback (d : dref) (cb : Callback) : M unit :=
  x ← lookup_deferred d;
  match x with
  | Pending cbs => store_deferred d (Pending (cbs ++ [cb]))
  | Fired v => v' ← run_callback cb v; store_deferred d (Fired v')
  end.

(** ** Delayed calls (twisted.internet.base) *)

Definition callLater (delay : N) (c : option Connector) : M tref :=
  fun w => let t := length (reactor w) in
           (Ok t, mkWorld (fac w) (heap w)
                    (reactor w ++ [mkDelayedCall delay c false false])
                    (trace w ++ [EvCallLater delay c t])).

Definition lookup_timer (t : tref) : M DelayedCall :=
  fun w => match reactor w !! t with
           | Some x => (Ok x, w)
           | None => (Raise Stuck, w)
           end.

Definition store_timer (t : tref) (x : DelayedCall) : M unit :=
  fun w => (Ok tt, mkWorld (fac w) (heap w) (<[t:=x]> (reactor w)) (trace w)).

Definition timer_cancel (t : tref) : M unit :=
  x ← lookup_timer t;
  if dc_cancelled x then raise AlreadyCancelled
  else if dc_called x then raise AlreadyCalled
  else
    store_timer t (mkDelayedCall (dc_delay x) (dc_arg x) true (dc_called x));;
    emit (EvTimerCancel t).

(** [self.reconnectTimer and self.reconnectTimer.active()] *)
Definition timer_pending : M bool :=
  f ← get_fac;
  match reconnectTimer f with
  | None => mret false
  | Some t => x ← lookup_timer t; mret (active x)
  end.

(** ** Strings *)

(** [needle in hay] *)
Fixpoint contains (needle hay : string) : bool :=
  if String.prefix needle hay then true
  else match hay with
       | EmptyString => false
       | String _ rest => contains needle rest
       end.

(** [q == v] for a string [q] *)
Definition str_eq (q : string) (v : PyArg) : bool :=
  match v with
  | PStr s => String.eqb q s
  | _ => false
  end.

(** ** The methods of [AmqpFactory] *)

(** [__init__]: the attribute assignments (the logger set-up touches the
    logging module only). *)
Definition __init__ (cfg : Config) : World :=
  mkWorld (mkFactory None true false cfg CRNone None [] None None None None)
          [] [] [].

Definition new_connectDeferred : M unit :=
  d ← new_deferred;
  upd_fac (set_connectDeferred (Some d));;
  addCallback d CbAuthenticate.

Definition preConnect : M Ret :=
  upd_fac (set_connectionRetry true);;
  ed ← new_deferred;
  upd_fac (set_exitDeferred (Some ed));;
  f ← get_fac;
  match channelReady f with
  | CRNone => d ← new_deferred; upd_fac (set_channelReady (CRDeferred d))
  | _ => mret tt
  end;;
  f ← get_fac;
  match connectDeferred f with
  | Some cd =>
      x ← lookup_deferred cd;
      if called x then new_connectDeferred else mret tt
  | None => new_connectDeferred
  end;;
  mret RNone.

Definition getExitDeferred : M Ret :=
  d ← attr exitDeferred; mret (RDeferred d).

Definition getChannelReadyDeferred : M ChannelReady :=
  f ← get_fac; mret (channelReady f).

Definition reConnect (connector : option Connector) : M Ret :=
  match connector with
  | None => emit (EvLog LError "No connector to retry !" []);; mret RNone
  | Some c =>
      preConnect;;
      emit (EvConnectorConnect c);;
      mret RNone
  end.

Definition clientConnectionFailed (connector : option Connector) (reason : string)
  : M Ret :=
  emit (EvLog LError "Connection failed. Reason: %s" [LStr reason]);;
  upd_fac (set_connected false);;
  pending ← timer_pending;
  if (pending : bool) then mret RNone
  else
    r ← attr retries;
    upd_fac (set_retries (Some (r + 1)));;
    if MAX_RETRIES <=? r + 1 then
      emit (EvLog LError "Reached maximum reconnect attempts, aborting." []);;
      cd ← attr connectDeferred;
      d_errback cd reason;;
      ed ← attr exitDeferred;
      d_callback ed VSelf;;
      mret RNone
    else
      f ← get_fac;
      t ← callLater (2 ^ (r + 1) * reconnectOnConnectionFailureDelay (config f))
                    connector;
      upd_fac (set_reconnectTimer (Some t));;
      mret RNone.

Definition clientConnectionLost (connector : option Connector) (reason : string)
  : M Ret :=
  if negb (contains "Connection was closed cleanly." reason) then
    emit (EvLog LError "Connection lost. Reason: %s" [LStr reason]);;
    upd_fac (set_connected false);;
    reConnect connector
  else
    upd_fac (set_connected false);;
    ed ← attr exitDeferred;
    d_callback ed VSelf;;
    emit (EvLog LInfo "Exiting." []);;
    mret RNone.

(** [connect_deferred.callback(lambda _: self.preConnect())] calls the local
    deferred with the function as its result; nothing applies the function. *)
Definition _connect : M Ret :=
  f ← get_fac;
  emit (EvLog LInfo "Establishing TCP connection to %s:%d"
          [LStr (host (config f)); LInt (port (config f))]);;
  connect_deferred ← new_deferred;
  emit (EvConnectTCP (host (config f)) (port (config f)));;
  d_callback connect_deferred VLambdaPreConnect;;
  mret (RDeferred connect_deferred).

Definition connect : M Ret :=
  _connect;;
  d ← attr connectDeferred;
  mret (RDeferred d).

(** [buildProtocol]: [p] is the protocol instance just constructed. *)
Definition buildProtocol (p : Client) : M Ret :=
  upd_fac (set_client (Some p));;
  mret (RProtocol p).

Definition _authenticated (ignore : Value) : M Ret :=
  emit (EvLog LInfo "Successfull authentication" []);;
  f ← get_fac;
  match client f with
  | None => raise AttributeError
  | Some cl => emit (EvClientChannel cl 1);; mret RNone
  end.

Definition _got_channel (ch : Channel) : M Ret :=
  emit (EvLog LInfo "Got channel" []);;
  upd_fac (set_chan (Some ch));;
  upd_fac (set_queues []);;
  emit (EvChannelOpen ch);;
  mret RNone.

Definition _channel_open (arg : Value) : M Ret :=
  emit (EvLog LInfo "The channel is open" []);;
  upd_fac (set_connected true);;
  f ← get_fac;
  match channelReady f with
  | CRDeferred d => d_callback d VSelf;; mret RNone
  | CRNone | CRFalse => raise AttributeError
  end.

Definition _channel_open_failed (error : string) : M Ret :=
  emit (EvLog LError "Channel open failed: %s" [LStr error]);; mret RNone.

Definition _got_channel_failed (error : string) : M Ret :=
  emit (EvLog LError "Error getting channel: %s" [LStr error]);; mret RNone.

Definition _authentication_failed (error : string) : M Ret :=
  emit (EvLog LError "AMQP authentication failed: %s" [LStr error]);; mret RNone.

Definition disconnect (reason : option string) : M Ret :=
  upd_fac (set_channelReady CRFalse);;
  f ← get_fac;
  match client f with
  | Some cl =>
      emit (EvClientClose cl reason);;
      mret (RExternal (EvClientClose cl reason))
  | None => mret RNone
  end.

(** The loop of [named_queue_declare] over [self.queues]: the first declared
    name equal to [keys['queue']], if any. *)
Fixpoint find_declared (qs : list string) (keys : Kwargs) : M (option string) :=
  match qs with
  | [] => mret None
  | q :: rest =>
      match keys !! "queue" with
      | None => raise KeyError
      | Some v => if str_eq q v then mret (Some q) else find_declared rest keys
      end
  end.

Definition named_queue_declare (args : list PyArg) (keys : Kwargs) : M Ret :=
  f ← get_fac;
  if negb (connected f) then
    emit (EvLog LError "AMQP Client is not connected, cannot queue_declare" []);;
    mret RNone
  else
    found ← find_declared (queues f) keys;
    match found with
    | Some q =>
        emit (EvLog LDebug
                "Queue [%s] is already declared, its okay .. no need to redeclare it"
                [LStr q]);;
        mret RNone
    | None =>
        ch ← attr chan;
        emit (EvQueueDeclare ch args keys);;
        mret (RExternal (EvQueueDeclare ch args keys))
    end.

(** [_queue_declared]: [queue] is the [queue] field of the broker's reply. *)
Definition _queue_declared (queue : string) : M Ret :=
  emit (EvLog LInfo "A new queue has been successfully declared [%s]" [LStr queue]);;
  f ← get_fac;
  upd_fac (set_queues (queues f ++ [queue]));;
  mret RNone.

Definition publish (args : Kwargs) : M Ret :=
  f ← get_fac;
  if negb (connected f) then
    emit (EvLog LError "AMQP Client is not connected, cannot publish: %s" [LDict args]);;
    mret RNone
  else
    ch ← attr chan;
    emit (EvBasicPublish ch args);;
    mret (RExternal (EvBasicPublish ch args)).

Definition stopConnectionRetrying : M Ret :=
  pending ← timer_pending;
  (if (pending : bool) then
     f ← get_fac;
     match reconnectTimer f with
     | Some t => timer_cancel t;; upd_fac (set_reconnectTimer None)
     | None => raise AttributeError
     end
   else mret tt);;
  upd_fac (set_connectionRetry false);;
  mret RNone.

Definition disconnectAndDontRetryToConnect : M Ret :=
  stopConnectionRetrying;;
  disconnect None.

(** ** The reactor *)

(** The reactor runs a delayed call that is still active: it marks it called
    and applies its function, [self.reConnect], to its argument. *)
Definition timer_fires (t : tref) : M Ret :=
  x ← lookup_timer t;
  if active x then
    store_timer t (mkDelayedCall (dc_delay x) (dc_arg x) (dc_cancelled x) true);;
    reConnect (dc_arg x)
  else mret RNone.

Definition run {A} (m : M A) (w : World) : World := snd (m w).
Definition outcome {A} (m : M A) (w : World) : Result A := fst (m w).

(** ** Observations *)

(** The delayed call the factory's [reconnectTimer] refers to. *)
Definition reconnect_call (w : World) : option DelayedCall :=
  t ← reconnectTimer (fac w); reactor w !! t.

(** No reconnect timer is pending: [reconnectTimer] is [None] or its delayed
    call is no longer active. *)
Definition no_timer_pending (w : World) : Prop :=
  outcome timer_pending w = Ok false.

(** The events a run appended to the trace. *)
Definition emitted (w w' : World) : list Event :=
  drop (length (trace w)) (trace w').

Definition is_fire_of (d : dref) (e : Event) : bool :=
  match e with
  | EvFire d' _ => Nat.eqb d d'
  | _ => false
  end.

(** How many times deferred [d] was called in a list of events. *)
Definition fired_count (d : dref) (es : list Event) : nat :=
  length (List.filter (is_fire_of d) es).

Definition is_connect_attempt (e : Event) : bool :=
  match e with
  | EvConnectTCP _ _ | EvConnectorConnect _ => true
  | _ => false
  end.

Definition is_call_later (e : Event) : bool :=
  match e with
  | EvCallLater _ _ _ => true
  | _ => false
  end.

Definition is_network_call (e : Event) : bool :=
  match e with
  | EvQueueDeclare _ _ _ | EvBasicPublish _ _ => true
  | _ => false
  end.

(** What a connection-failed handler run from [w] to [w'] has to show for
    having armed the backoff: a fresh active delayed call of [delay] seconds
    held in [reconnectTimer], and every deferred as it was. *)
Definition backoff_armed (delay : N) (c : option Connector) (w w' : World) : Prop :=
  reconnect_call w' = Some (mkDelayedCall delay c false false) /\
  reactor w' = reactor w ++ [mkDelayedCall delay c false false] /\
  heap w' = heap w /\
  List.filter is_call_later (emitted w w') =
    [EvCallLater delay c (length (reactor w))].

(** ** Sample worlds *)

Definition cfg1 : Config := mkConfig "127.0.0.1" 5672 "guest" "guest" 1.

(** A factory after [preConnect]. *)
Definition w_pre : World := run preConnect (__init__ cfg1).

(** The same with the failure counter holding [k]. *)
Definition w_count (k : N) : World :=
  mkWorld (set_retries (Some k) (fac w_pre)) (heap w_pre) (reactor w_pre) (trace w_pre).

(** A factory whose handshake has completed on channel 3 and which has
    declared the queue orders. *)
Definition w_ready : World :=
  run (_queue_declared "orders")
    (run (_channel_open VNone)
       (run (_got_channel 3%nat)
          (run (buildProtocol 1%nat) (w_count 0)))).

(** A factory waiting for its reconnect timer after a first failure. *)
Definition w_backing_off : World :=
  run (clientConnectionFailed (Some 7%nat) "refused") (w_count 0).

Definition unclean : string :=
  "Connection to the other side was lost in a non-clean fashion.".

Definition clean : string :=
  "[Failure instance: Traceback (failure with no frames): Connection was closed cleanly.]".

(** A factory that has counted three failures and was then told to stop
    retrying. *)
Definition w_stopped : World := run stopConnectionRetrying (w_count 3).

(** Keyword arguments of a declaration of the queue orders, and of a
    message published to it. *)
Definition orders_keys : Kwargs :=
  <["queue" := PStr "orders"]> (<["durable" := PBool true]> ∅).

Definition orders_msg : Kwargs :=
  <["exchange" := PStr "messaging"]> (<["routing_key" := PStr "orders"]> ∅).

(** Every reference the factory holds points into the store of deferreds or
    into the reactor's delayed calls: it lies below the length of the list,
    which [ref_bound] states as a bound ([None] asks for nothing). *)
Definition ref_bound (d : option nat) : nat :=
  match d with
  | Some r => S r
  | None => 0
  end.

Definition channelReady_bound (c : ChannelReady) : nat :=
  match c with
  | CRDeferred d => S d
  | CRNone | CRFalse => 0
  end.

Definition valid_dref (w : World) (d : option dref) : Prop :=
  (ref_bound d <= length (heap w))%nat.

Definition valid_tref (w : World) (t : option tref) : Prop :=
  (ref_bound t <= length (reactor w))%nat.

Definition wf_World (w : World) : Prop :=
  valid_dref w (exitDeferred (fac w)) /\
  valid_dref w (connectDeferred (fac w)) /\
  (channelReady_bound (channelReady (fac w)) <= length (heap w))%nat /\
  valid_tref w (reconnectTimer (fac w)).

(** ** Histories *)

(** The calls a factory receives: from the code that owns it, from the
    connector and the reactor, and from the deferreds of the protocol
    instance. *)
Inductive Call : Type :=
| CPreConnect
| CConnect
| CBuildProtocol (p : Client)
| CClientConnectionFailed (c : option Connector) (reason : string)
| CClientConnectionLost (c : option Connector) (reason : string)
| CReConnect (c : option Connector)
| CAuthenticate (v : Value)
| CAuthenticated (v : Value)
| CGotChannel (ch : Channel)
| CChannelOpen (v : Value)
| CChannelOpenFailed (error : string)
| CGotChannelFailed (error : string)
| CAuthenticationFailed (error : string)
| CDisconnect (reason : option string)
| CNamedQueueDeclare (args : list PyArg) (keys : Kwargs)
| CQueueDeclared (queue : string)
| CPublish (args : Kwargs)
| CStopConnectionRetrying
| CDisconnectAndDontRetryToConnect
| CTimerFires (t : tref).

Definition exec (c : Call) : M Ret :=
  match c with
  | CPreConnect => preConnect
  | CConnect => connect
  | CBuildProtocol p => buildProtocol p
  | CClientConnectionFailed c reason => clientConnectionFailed c reason
  | CClientConnectionLost c reason => clientConnectionLost c reason
  | CReConnect c => reConnect c
  | CAuthenticate v => authenticate v
  | CAuthenticated v => _authenticated v
  | CGotChannel ch => _got_channel ch
  | CChannelOpen v => _channel_open v
  | CChannelOpenFailed e => _channel_open_failed e
  | CGotChannelFailed e => _got_channel_failed e
  | CAuthenticationFailed e => _authentication_failed e
  | CDisconnect reason => disconnect reason
  | CNamedQueueDeclare args keys => named_queue_declare args keys
  | CQueueDeclared q => _queue_declared q
  | CPublish args => publish args
  | CStopConnectionRetrying => stopConnectionRetrying
  | CDisconnectAndDontRetryToConnect => disconnectAndDontRetryToConnect
  | CTimerFires t => timer_fires t
  end.

(** The reactor only runs delayed calls it holds. *)
Definition possible (c : Call) (w : World) : Prop :=
  match c with
  | CTimerFires t => (t < length (reactor w))%nat
  | _ => True
  end.

(** The worlds a factory built by [__init__] goes through.  [counter] is what
    the owner of the factory has stored in its [retries] attribute before any
    call ([None]: nothing, which is all that factory.py itself does). *)
Inductive reachable (cfg : Config) (counter : option N) : World -> Prop :=
| reach_init :
    reachable cfg counter
      (mkWorld (set_retries counter (fac (__init__ cfg))) [] [] [])
| reach_call (w : World) (c : Call) :
    reachable cfg counter w -> possible c w ->
    reachable cfg counter (run (exec c) w).

(** The factory has no failure counter and has armed no timer. *)
Definition no_counter (w : World) : Prop :=
  retries (fac w) = None /\ reactor w = [] /\ reconnectTimer (fac w) = None.

(** A history as a list of calls, the earliest first. *)
Definition run_calls (cs : list Call) (w : World) : World :=
  fold_left (fun w c => run (exec c) w) cs w.

(** Five failed connection attempts in a row, each retry being started by
    the reconnect timer of the failure before. *)
Definition five_failures : list Call :=
  [CClientConnectionFailed (Some 7%nat) "refused"; CTimerFires 0%nat;
   CClientConnectionFailed (Some 7%nat) "refused"; CTimerFires 1%nat;
   CClientConnectionFailed (Some 7%nat) "refused"; CTimerFires 2%nat;
   CClientConnectionFailed (Some 7%nat) "refused"; CTimerFires 3%nat;
   CClientConnectionFailed (Some 7%nat) "refused"].

(** A run of [m] leaves the observation [proj] of the world as it was,
    whether [m] returns or raises. *)
Definition preserves {A B} (proj : World -> B) (m : M A) : Prop :=
  forall w, proj (run m w) = proj w.

(** ** Further observations *)

(** The factory holds a connect deferred that has not been called. *)
Definition connect_is_pending (w : World) : bool :=
  match connectDeferred (fac w) with
  | Some cd =>
      match heap w !! cd with
      | Some (Pending _) => true
      | _ => false
      end
  | None => false
  end.

(** At most one delayed call is active, and it is the one the factory holds
    in [reconnectTimer]. *)
Definition one_active_timer (w : World) : Prop :=
  forall (t : tref) (x : DelayedCall),
    reactor w !! t = Some x -> active x = true ->
    reconnectTimer (fac w) = Some t.



(** The outcome of each call of a history, the earliest first. *)
Fixpoint outcomes (cs : list Call) (w : World) : list (Result Ret) :=
  match cs with
  | [] => []
  | c :: rest => outcome (exec c) w :: outcomes rest (run (exec c) w)
  end.

(** Five connection failures reported one after the other. *)
Definition failures_in_a_row : list Call :=
  repeat (CClientConnectionFailed (Some 7%nat) "refused") 5.

(** ** Proof support *)

(** Unfolds the monad and its primitives. *)
Ltac py_unfold :=
  repeat progress
    unfold attr, mbind, M_bind, bind, mret, M_ret, ret, raise, get_fac, upd_fac,
      emit, lookup_deferred, store_deferred, lookup_timer, store_timer,
      new_deferred, callLater in *.

(** The pending-timer test reads the world and leaves it alone; its answer
    depends on [reconnectTimer] and the reactor only. *)
Lemma timer_pending_pure (w : World) :
  timer_pending w = (outcome timer_pending w, w).
Proof.
  unfold outcome, timer_pending; py_unfold.
  destruct (reconnectTimer (fac w)) as [t|]; simpl; [|reflexivity].
  destruct (reactor w !! t); reflexivity.
Qed.

Lemma timer_pending_frame (w1 w2 : World) :
  reconnectTimer (fac w1) = reconnectTimer (fac w2) ->
  reactor w1 = reactor w2 ->
  outcome timer_pending w1 = outcome timer_pending w2.
Proof.
  destruct w1 as [f1 h1 r1 tr1], w2 as [f2 h2 r2 tr2]. simpl.
  intros Ht ->. unfold outcome, timer_pending; py_unfold; simpl.
  rewrite Ht.
  destruct (reconnectTimer f2) as [t|]; simpl; [|reflexivity].
  destruct (r2 !! t); reflexivity.
Qed.

(** The run of the handler on its retry branch. *)
Lemma clientConnectionFailed_retry (w : World) c reason k :
  retries (fac w) = Some k ->
  k + 1 < MAX_RETRIES ->
  no_timer_pending w ->
  clientConnectionFailed c reason w =
    (Ok RNone,
     mkWorld
       (set_reconnectTimer (Some (length (reactor w)))
          (set_retries (Some (k + 1)) (set_connected false (fac w))))
       (heap w)
       (reactor w ++
          [mkDelayedCall (2 ^ (k + 1) * reconnectOnConnectionFailureDelay (config (fac w)))
             c false false])
       (trace w ++
          [EvLog LError "Connection failed. Reason: %s" [LStr reason];
           EvCallLater (2 ^ (k + 1) * reconnectOnConnectionFailureDelay (config (fac w)))
             c (length (reactor w))])).
Proof.
  intros Hk Hlt Hp. destruct w as [f h r tr]. simpl in *.
  unfold clientConnectionFailed.
  unfold mbind at 1, M_bind at 1, bind at 1, emit at 1. simpl.
  unfold mbind at 1, M_bind at 1, bind at 1, upd_fac at 1. simpl.
  unfold mbind at 1, M_bind at 1, bind at 1.
  rewrite timer_pending_pure, (timer_pending_frame _ (mkWorld f h r tr)) by reflexivity.
  rewrite Hp.
  py_unfold. simpl. rewrite Hk.
  apply N.leb_gt in Hlt. rewrite Hlt. simpl.
  rewrite <- app_assoc. reflexivity.
Qed.

(** A Failure goes down the chain untouched: every errback the factory has
    is the pass-through. *)
Lemma run_callbacks_failure (cbs : list Callback) (v : Value) (w : World) :
  is_failure v = true -> run_callbacks cbs v w = (Ok v, w).
Proof.
  intros Hv. induction cbs as [|cb rest IH]; simpl; [reflexivity|].
  destruct cb. unfold mbind, M_bind, bind. simpl. rewrite Hv.
  unfold mret, M_ret, ret. exact IH.
Qed.

Lemma emitted_app (w w' : World) (es : list Event) :
  trace w' = trace w ++ es -> emitted w w' = es.
Proof. unfold emitted. intros ->. apply drop_app_length. Qed.

(** The run of the handler on its give-up branch. *)
Lemma clientConnectionFailed_exit (w : World) c reason k cd ed cbs :
  retries (fac w) = Some k ->
  MAX_RETRIES <= k + 1 ->
  no_timer_pending w ->
  connectDeferred (fac w) = Some cd ->
  exitDeferred (fac w) = Some ed ->
  heap w !! cd = Some (Pending cbs) ->
  heap w !! ed = Some (Pending []) ->
  cd <> ed ->
  clientConnectionFailed c reason w =
    (Ok RNone,
     mkWorld
       (set_retries (Some (k + 1)) (set_connected false (fac w)))
       (<[ed:=Fired VSelf]> (<[cd:=Fired (VFailure reason)]> (heap w)))
       (reactor w)
       (trace w ++
          [EvLog LError "Connection failed. Reason: %s" [LStr reason];
           EvLog LError "Reached maximum reconnect attempts, aborting." [];
           EvFire cd (VFailure reason);
           EvFire ed VSelf])).
Proof.
  intros Hk Hge Hp Hcd Hed Hhc Hhe Hne. destruct w as [f h r tr]. simpl in *.
  unfold clientConnectionFailed.
  unfold mbind at 1, M_bind at 1, bind at 1, emit at 1. simpl.
  unfold mbind at 1, M_bind at 1, bind at 1, upd_fac at 1. simpl.
  unfold mbind at 1, M_bind at 1, bind at 1.
  rewrite timer_pending_pure, (timer_pending_frame _ (mkWorld f h r tr)) by reflexivity.
  rewrite Hp.
  unfold d_errback, d_callback, fire.
  py_unfold. simpl. rewrite Hk.
  apply N.leb_le in Hge. rewrite Hge. simpl.
  rewrite Hcd. simpl. rewrite Hhc. simpl.
  rewrite run_callbacks_failure by reflexivity. simpl.
  rewrite Hed. simpl. rewrite list_insert_insert_eq.
  rewrite list_lookup_insert_ne by exact Hne. rewrite Hhe. simpl.
  rewrite list_insert_insert_eq.
  repeat rewrite <- app_assoc. reflexivity.
Qed.

(** ** The connection-failed handler *)

(** C1, as amended: when the failure counter holds [k] failures counted
    before this one, the current failure makes it [k + 1]; if that is still
    below [MAX_RETRIES] and no reconnect timer is pending, the handler arms a
    reconnect timer of [baseDelay * 2 ^ (k + 1)] seconds (the exponent is the
    count that includes the current failure) and calls no deferred. *)
Theorem clientConnectionFailed_backoff
    (w : World) (c : option Connector) (reason : string) (k : N) :
  retries (fac w) = Some k ->
  k + 1 < MAX_RETRIES ->
  no_timer_pending w ->
  let w' := run (clientConnectionFailed c reason) w in
  outcome (clientConnectionFailed c reason) w = Ok RNone /\
  retries (fac w') = Some (k + 1) /\
  backoff_armed (reconnectOnConnectionFailureDelay (config (fac w)) * 2 ^ (k + 1))
    c w w' /\
  (forall d, fired_count d (emitted w w') = 0%nat) /\
  exitDeferred (fac w') = exitDeferred (fac w).
Proof.
  intros Hk Hlt Hp w'. subst w'. unfold run, outcome.
  rewrite (clientConnectionFailed_retry w c reason k Hk Hlt Hp). simpl.
  rewrite (N.mul_comm (reconnectOnConnectionFailureDelay _)).
  split; [reflexivity|]. split; [reflexivity|].
  split; [|split; [|reflexivity]].
  - unfold backoff_armed, reconnect_call. simpl.
    split; [|split; [reflexivity|split; [reflexivity|]]].
    + apply list_lookup_middle. reflexivity.
    + erewrite emitted_app by reflexivity. reflexivity.
  - intros d. erewrite emitted_app by reflexivity. reflexivity.
Qed.

Lemma clientConnectionFailed_backoff_witness :
  let w' := run (clientConnectionFailed (Some 7%nat) "refused") (w_count 0) in
  outcome (clientConnectionFailed (Some 7%nat) "refused") (w_count 0) = Ok RNone /\
  retries (fac w') = Some 1 /\
  backoff_armed 2 (Some 7%nat) (w_count 0) w' /\
  (forall d, fired_count d (emitted (w_count 0) w') = 0%nat) /\
  exitDeferred (fac w') = exitDeferred (fac (w_count 0)).
Proof.
  apply (clientConnectionFailed_backoff (w_count 0) (Some 7%nat) "refused" 0);
    reflexivity.
Defined.

(** C1, as stated, fails: with the counter at 0 and a base delay of 1 second
    the first timer is armed for 2 seconds, not 1; and with the counter at 4,
    which is below [MAX_RETRIES], no timer is armed at all: the exit deferred
    is called instead. *)
Lemma backoff_exponent_counts_current_failure :
  ~ (forall (w : World) c reason k,
       retries (fac w) = Some k ->
       k < MAX_RETRIES ->
       no_timer_pending w ->
       let w' := run (clientConnectionFailed c reason) w in
       backoff_armed (reconnectOnConnectionFailureDelay (config (fac w)) * 2 ^ k) c w w' /\
       (forall d, fired_count d (emitted w w') = 0%nat)) /\
  dc_delay <$> reconnect_call (run (clientConnectionFailed (Some 7%nat) "refused") (w_count 0))
    = Some 2 /\
  reconnect_call (run (clientConnectionFailed (Some 7%nat) "refused") (w_count 4)) = None /\
  fired_count 0 (emitted (w_count 4)
                   (run (clientConnectionFailed (Some 7%nat) "refused") (w_count 4))) = 1%nat.
Proof.
  split; [|split; [|split]]; try reflexivity.
  intros H.
  destruct (H (w_count 0) (Some 7%nat) "refused" 0 eq_refl eq_refl eq_refl)
    as [[Hcall _] _].
  vm_compute in Hcall. discriminate Hcall.
Qed.

(** The give-up branch, for a factory whose owner has stored a counter: when
    the current failure brings the counter to [MAX_RETRIES] (or beyond) and
    both deferreds are still waiting, the handler calls the connect deferred
    with the failure reason, calls the exit deferred, each exactly once, arms
    no timer and starts no connection attempt; the exit deferred cannot be
    called a second time. *)
Theorem clientConnectionFailed_exhausted
    (w : World) (c : option Connector) (reason : string) (k : N)
    (cd ed : dref) (cbs : list Callback) :
  retries (fac w) = Some k ->
  MAX_RETRIES <= k + 1 ->
  no_timer_pending w ->
  connectDeferred (fac w) = Some cd ->
  exitDeferred (fac w) = Some ed ->
  heap w !! cd = Some (Pending cbs) ->
  heap w !! ed = Some (Pending []) ->
  cd <> ed ->
  let w' := run (clientConnectionFailed c reason) w in
  outcome (clientConnectionFailed c reason) w = Ok RNone /\
  heap w' !! cd = Some (Fired (VFailure reason)) /\
  heap w' !! ed = Some (Fired VSelf) /\
  fired_count ed (emitted w w') = 1%nat /\
  fired_count cd (emitted w w') = 1%nat /\
  outcome (d_callback ed VSelf) w' = Raise AlreadyCalledError /\
  reactor w' = reactor w /\
  reconnectTimer (fac w') = reconnectTimer (fac w) /\
  no_timer_pending w' /\
  List.filter is_call_later (emitted w w') = [] /\
  List.filter is_connect_attempt (emitted w w') = [].
Proof.
  intros Hk Hge Hp Hcd Hed Hhc Hhe Hne w'. subst w'. unfold run, outcome.
  rewrite (clientConnectionFailed_exit w c reason k cd ed cbs Hk Hge Hp Hcd Hed Hhc Hhe Hne).
  simpl.
  assert (Hlc : (cd < length (heap w))%nat) by (eapply lookup_lt_Some; eassumption).
  assert (Hle : (ed < length (heap w))%nat) by (eapply lookup_lt_Some; eassumption).
  assert (Hed' : <[ed:=Fired VSelf]> (<[cd:=Fired (VFailure reason)]> (heap w)) !! ed
                 = Some (Fired VSelf)).
  { apply list_lookup_insert_eq. rewrite length_insert. exact Hle. }
  erewrite emitted_app by reflexivity.
  split; [reflexivity|]. split.
  { rewrite list_lookup_insert_ne by congruence.
    apply list_lookup_insert_eq. exact Hlc. }
  split; [exact Hed'|].
  unfold fired_count. simpl.
  rewrite !Nat.eqb_refl.
  destruct (Nat.eqb_neq ed cd) as [_ Hb1]. rewrite Hb1 by congruence.
  destruct (Nat.eqb_neq cd ed) as [_ Hb2]. rewrite Hb2 by congruence.
  repeat (split; try reflexivity).
  - unfold d_callback, fire. py_unfold. simpl. rewrite Hed'. reflexivity.
  - unfold no_timer_pending.
    rewrite (timer_pending_frame _ w) by reflexivity. exact Hp.
Qed.

Lemma clientConnectionFailed_exhausted_witness :
  let w := w_count 4 in
  let w' := run (clientConnectionFailed (Some 7%nat) "refused") w in
  outcome (clientConnectionFailed (Some 7%nat) "refused") w = Ok RNone /\
  heap w' !! 2%nat = Some (Fired (VFailure "refused")) /\
  heap w' !! 0%nat = Some (Fired VSelf) /\
  fired_count 0 (emitted w w') = 1%nat /\
  fired_count 2 (emitted w w') = 1%nat /\
  outcome (d_callback 0%nat VSelf) w' = Raise AlreadyCalledError /\
  reactor w' = reactor w /\
  reconnectTimer (fac w') = reconnectTimer (fac w) /\
  no_timer_pending w' /\
  List.filter is_call_later (emitted w w') = [] /\
  List.filter is_connect_attempt (emitted w w') = [].
Proof.
  apply (clientConnectionFailed_exhausted (w_count 4) (Some 7%nat) "refused" 4
           2%nat 0%nat [CbAuthenticate]);
    first [reflexivity | discriminate | vm_compute; discriminate].
Defined.

(** C2: the code never gets to exhaust its retries.  On a factory built by
    [__init__] and prepared by [preConnect] and [connect],
    each of five connection failures in a row raises [AttributeError] at
    [self.retries += 1]: the counter never comes into being, the exit
    deferred and the connect deferred stay uncalled and no timer is armed.
    And when the owner of the factory has stored a counter, so that the fifth
    failure does give up, the exit deferred that was handed out before the
    retries is still uncalled (each retry's [preConnect] replaced it), and a
    new [connect()] does not recover: it returns the connect deferred that
    was already rejected, leaves the counter at five, and the next failure
    raises [AlreadyCalledError]. *)
Theorem retries_exhaustion_is_never_reached (cfg : Config) :
  (let w0 := run connect (run preConnect (__init__ cfg)) in
   let w5 := run_calls failures_in_a_row w0 in
   outcomes failures_in_a_row w0 = repeat (Raise AttributeError) 5 /\
   retries (fac w5) = None /\
   exitDeferred (fac w5) = Some 0%nat /\
   heap w5 !! 0%nat = Some (Pending []) /\
   connectDeferred (fac w5) = Some 2%nat /\
   heap w5 !! 2%nat = Some (Pending [CbAuthenticate]) /\
   reactor w5 = []) /\
  (let wx := run_calls five_failures (w_count 0) in
   outcome getExitDeferred (w_count 0) = Ok (RDeferred 0%nat) /\
   heap wx !! 0%nat = Some (Pending []) /\
   heap wx !! 2%nat = Some (Fired (VFailure "refused")) /\
   outcome connect wx = Ok (RDeferred 2%nat) /\
   retries (fac (run connect wx)) = Some 5 /\
   outcome (clientConnectionFailed (Some 7%nat) "refused") (run connect wx) =
     Raise AlreadyCalledError).
Proof.
  split.
  - cbv zeta. repeat split.
  - vm_compute. repeat split.
Qed.


(** ** Frame reasoning *)

Section Preserves.
Context {C : Type} (proj : World -> C).

Lemma preserves_bind {A B} (m : M A) (k : A -> M B) :
  preserves proj m -> (forall a, preserves proj (k a)) ->
  preserves proj (m ≫= k).
Proof.
  intros Hm Hk w. specialize (Hm w).
  unfold run, mbind, M_bind, bind in *.
  destruct (m w) as [[a|e] w1]; simpl in *.
  - rewrite <- Hm. apply Hk.
  - exact Hm.
Qed.

Lemma preserves_ret {A} (a : A) : preserves proj (mret a).
Proof. intros w. reflexivity. Qed.

Lemma preserves_raise {A} (e : Exn) : preserves proj (@raise A e).
Proof. intros w. reflexivity. Qed.

Lemma preserves_get_fac : preserves proj get_fac.
Proof. intros w. reflexivity. Qed.

Lemma preserves_lookup_deferred (d : dref) : preserves proj (lookup_deferred d).
Proof. intros w. unfold run, lookup_deferred. destruct (heap w !! d); reflexivity. Qed.

Lemma preserves_lookup_timer (t : tref) : preserves proj (lookup_timer t).
Proof. intros w. unfold run, lookup_timer. destruct (reactor w !! t); reflexivity. Qed.

(** Observations that ignore the trace and the store of deferreds are kept
    by everything that only logs, calls collaborators and calls deferreds. *)
Hypothesis proj_emit : forall e, preserves proj (emit e).
Hypothesis proj_store : forall d x, preserves proj (store_deferred d x).

Lemma preserves_authenticate (v : Value) : preserves proj (authenticate v).
Proof.
  unfold authenticate. apply preserves_bind; [apply preserves_get_fac|].
  intros f. destruct (client f).
  - apply preserves_bind; [apply proj_emit | intros; apply preserves_ret].
  - apply preserves_raise.
Qed.

Lemma preserves_run_callback (cb : Callback) (v : Value) :
  preserves proj (run_callback cb v).
Proof.
  destruct cb. unfold run_callback. destruct (is_failure v).
  - apply preserves_ret.
  - intros w. pose proof (preserves_authenticate v w) as H.
    unfold run in *. destruct (authenticate v w) as [[a|e] w1]; exact H.
Qed.

Lemma preserves_run_callbacks (cbs : list Callback) (v : Value) :
  preserves proj (run_callbacks cbs v).
Proof.
  revert v. induction cbs as [|cb rest IH]; intros v; simpl.
  - apply preserves_ret.
  - apply preserves_bind; [apply preserves_run_callback | exact IH].
Qed.

Lemma preserves_fire (d : dref) (v : Value) : preserves proj (fire d v).
Proof.
  unfold fire. apply preserves_bind; [apply preserves_lookup_deferred|].
  intros [cbs|v0]; [|apply preserves_raise].
  apply preserves_bind; [apply proj_emit | intros _].
  apply preserves_bind; [apply proj_store | intros _].
  apply preserves_bind; [apply preserves_run_callbacks | intros v'].
  apply proj_store.
Qed.

Lemma preserves_addCallback (d : dref) (cb : Callback) :
  preserves proj (addCallback d cb).
Proof.
  unfold addCallback. apply preserves_bind; [apply preserves_lookup_deferred|].
  intros [cbs|v0]; [apply proj_store|].
  apply preserves_bind; [apply preserves_run_callback | intros; apply proj_store].
Qed.

Lemma preserves_find_declared (qs : list string) (keys : Kwargs) :
  preserves proj (find_declared qs keys).
Proof.
  induction qs as [|q rest IH]; simpl; [apply preserves_ret|].
  destruct (keys !! "queue") as [v|]; [|apply preserves_raise].
  destruct (str_eq q v); [apply preserves_ret | exact IH].
Qed.
End Preserves.

Ltac unfold_methods :=
  repeat progress unfold clientConnectionFailed, clientConnectionLost, reConnect, preConnect,
    new_connectDeferred, connect, _connect, disconnectAndDontRetryToConnect,
    stopConnectionRetrying, disconnect, timer_fires, timer_cancel, timer_pending,
    named_queue_declare, publish, _queue_declared, _got_channel, _channel_open,
    _authenticated, _channel_open_failed, _got_channel_failed,
    _authentication_failed, buildProtocol, getExitDeferred, d_callback, d_errback,
    attr.

(** Decomposes a goal [preserves proj m] along the structure of [m]. *)
Ltac frame :=
  unfold_methods;
  repeat first
    [ apply preserves_ret
    | apply preserves_raise
    | apply preserves_get_fac
    | apply preserves_lookup_deferred
    | apply preserves_lookup_timer
    | apply preserves_find_declared
    | apply preserves_fire; [intros ? ?; reflexivity | intros ? ? ?; reflexivity]
    | apply preserves_addCallback; [intros ? ?; reflexivity | intros ? ? ?; reflexivity]
    | apply preserves_authenticate; intros ? ?; reflexivity
    | apply preserves_bind; [|intros ?]
    | match goal with
      | |- preserves _ (match ?x with _ => _ end) => destruct x
      end
    | (intros ?; reflexivity) ].

Lemma preConnect_trace : preserves trace preConnect.
Proof.
  assert (Hnew : preserves trace new_connectDeferred).
  { intros w. unfold run, new_connectDeferred, addCallback. py_unfold. simpl.
    rewrite list_lookup_middle by reflexivity. reflexivity. }
  unfold preConnect.
  repeat first
    [ apply preserves_ret
    | apply preserves_get_fac
    | apply preserves_lookup_deferred
    | exact Hnew
    | apply preserves_bind; [|intros ?]
    | match goal with
      | |- preserves _ (match ?x with _ => _ end) => destruct x
      end
    | (intros ?; reflexivity) ].
Qed.

Lemma clientConnectionLost_queues c reason :
  preserves (fun w => queues (fac w)) (clientConnectionLost c reason).
Proof. frame. Qed.

Lemma clientConnectionFailed_queues c reason :
  preserves (fun w => queues (fac w)) (clientConnectionFailed c reason).
Proof. frame. Qed.

Lemma clientConnectionLost_retries c reason :
  preserves (fun w => retries (fac w)) (clientConnectionLost c reason).
Proof. frame. Qed.

Lemma clientConnectionLost_reactor c reason :
  preserves reactor (clientConnectionLost c reason).
Proof. frame. Qed.

Lemma clientConnectionLost_reconnectTimer c reason :
  preserves (fun w => reconnectTimer (fac w)) (clientConnectionLost c reason).
Proof. frame. Qed.

Lemma new_connectDeferred_eq (w : World) :
  new_connectDeferred w =
    (Ok tt, mkWorld (set_connectDeferred (Some (length (heap w))) (fac w))
              (heap w ++ [Pending [CbAuthenticate]]) (reactor w) (trace w)).
Proof.
  unfold new_connectDeferred, addCallback. py_unfold. simpl.
  rewrite list_lookup_middle by reflexivity. simpl.
  rewrite insert_app_r_alt by reflexivity.
  rewrite Nat.sub_diag. reflexivity.
Qed.

(** [preConnect] returns normally whenever the connect deferred it inspects
    is in the store. *)
Lemma preConnect_ok (w : World) :
  valid_dref w (connectDeferred (fac w)) ->
  outcome preConnect w = Ok RNone.
Proof.
  destruct w as [f h r tr]. unfold valid_dref. simpl. intros Hv.
  unfold outcome, preConnect.
  unfold mbind at 1, M_bind at 1, bind at 1, upd_fac at 1. simpl.
  unfold mbind at 1, M_bind at 1, bind at 1, new_deferred at 1. simpl.
  unfold mbind at 1, M_bind at 1, bind at 1, upd_fac at 1. simpl.
  unfold mbind at 1, M_bind at 1, bind at 1.
  unfold mbind at 1, M_bind at 1, bind at 1, get_fac at 1. simpl.
  destruct (connectDeferred f) as [cd|] eqn:Hcd.
  - simpl in Hv. destruct (lookup_lt_is_Some_2 h cd Hv) as [x Hx].
    destruct (channelReady f); py_unfold; simpl; rewrite Hcd; simpl;
      rewrite ?lookup_app_l by (rewrite ?length_app; simpl; lia);
      rewrite Hx; simpl;
      (destruct (called x); [rewrite new_connectDeferred_eq|]); reflexivity.
  - destruct (channelReady f); py_unfold; simpl; rewrite Hcd;
      rewrite new_connectDeferred_eq; reflexivity.
Qed.

(** ** Loss of the transport *)

Lemma preConnect_connected : preserves (fun w => connected (fac w)) preConnect.
Proof. frame. Qed.

(** The run of the loss handler on an unclean reason, in terms of the run of
    [preConnect]. *)
Lemma clientConnectionLost_unclean_eq (w : World) (c : Connector) (reason : string) :
  contains "Connection was closed cleanly." reason = false ->
  valid_dref w (connectDeferred (fac w)) ->
  let w1 := mkWorld (set_connected false (fac w)) (heap w) (reactor w)
              (trace w ++ [EvLog LError "Connection lost. Reason: %s" [LStr reason]]) in
  let wp := run preConnect w1 in
  clientConnectionLost (Some c) reason w =
    (Ok RNone,
     mkWorld (fac wp) (heap wp) (reactor wp) (trace wp ++ [EvConnectorConnect c])).
Proof.
  intros Hr Hv w1 wp.
  unfold clientConnectionLost. rewrite Hr. simpl.
  unfold mbind at 1, M_bind at 1, bind at 1, emit at 1. simpl.
  unfold mbind at 1, M_bind at 1, bind at 1, upd_fac at 1. simpl.
  unfold mbind at 1, M_bind at 1, bind at 1.
  fold w1.
  assert (Hok : outcome preConnect w1 = Ok RNone) by (apply preConnect_ok; exact Hv).
  unfold outcome in Hok. subst wp. unfold run.
  destruct (preConnect w1) as [res wp]. simpl in Hok. subst res.
  reflexivity.
Qed.

(** What [preConnect] does to the deferreds and the flag. *)
Lemma preConnect_effects (w : World) :
  valid_dref w (connectDeferred (fac w)) ->
  let w' := run preConnect w in
  outcome preConnect w = Ok RNone /\
  connectionRetry (fac w') = true /\
  exitDeferred (fac w') = Some (length (heap w)) /\
  heap w' !! length (heap w) = Some (Pending []) /\
  take (length (heap w)) (heap w') = heap w /\
  (if connect_is_pending w
   then connectDeferred (fac w') = connectDeferred (fac w)
   else exists cd',
          connectDeferred (fac w') = Some cd' /\
          (length (heap w) < cd')%nat /\
          heap w' !! cd' = Some (Pending [CbAuthenticate])).
Proof.
  destruct w as [[rt cr con cfg chr cl qs ed cd ch rs] h r tr].
  unfold valid_dref, connect_is_pending, outcome, run, preConnect. simpl.
  intros Hv.
  destruct cd as [cd|]; simpl in Hv.
  - destruct (lookup_lt_is_Some_2 h cd Hv) as [x Hx]. rewrite Hx.
    destruct chr, x as [cbs|v]; py_unfold; simpl;
      rewrite ?lookup_app_l by (rewrite ?length_app; simpl; lia);
      rewrite Hx; simpl; rewrite ?new_connectDeferred_eq; simpl;
      rewrite <- ?app_assoc;
      (split; [reflexivity|]); (split; [reflexivity|]); (split; [reflexivity|]);
      (split; [apply list_lookup_middle; reflexivity|]);
      (split; [apply take_app_length|]);
      try reflexivity;
      eexists; (split; [reflexivity|]);
      (split; [rewrite ?length_app; simpl; lia|]);
      rewrite ?app_assoc; apply list_lookup_middle;
      rewrite ?length_app; simpl; lia.
  - destruct chr; py_unfold; simpl; rewrite ?new_connectDeferred_eq; simpl;
      rewrite <- ?app_assoc;
      (split; [reflexivity|]); (split; [reflexivity|]); (split; [reflexivity|]);
      (split; [apply list_lookup_middle; reflexivity|]);
      (split; [apply take_app_length|]);
      eexists; (split; [reflexivity|]);
      (split; [rewrite ?length_app; simpl; lia|]);
      rewrite ?app_assoc; apply list_lookup_middle;
      rewrite ?length_app; simpl; lia.
Qed.

(** C3, as amended: on an unclean loss the factory clears [connected] and
    reconnects at once: [reConnect] runs [preConnect] and then
    [connector.connect()] in the same call.  The pending-timer test is not
    consulted, the failure counter is left as it was and no delayed call is
    created.  That [preConnect] has run shows in the world: [connectionRetry]
    is set, a fresh uncalled exit deferred has replaced the one before, the
    deferreds that existed are as they were, and the connect deferred is kept
    if it was still waiting and replaced by a fresh one otherwise. *)
Theorem clientConnectionLost_unclean_reconnects_at_once
    (w : World) (c : Connector) (reason : string) :
  contains "Connection was closed cleanly." reason = false ->
  valid_dref w (connectDeferred (fac w)) ->
  let w' := run (clientConnectionLost (Some c) reason) w in
  outcome (clientConnectionLost (Some c) reason) w = Ok RNone /\
  connected (fac w') = false /\
  retries (fac w') = retries (fac w) /\
  reconnectTimer (fac w') = reconnectTimer (fac w) /\
  reactor w' = reactor w /\
  emitted w w' =
    [EvLog LError "Connection lost. Reason: %s" [LStr reason]; EvConnectorConnect c] /\
  connectionRetry (fac w') = true /\
  exitDeferred (fac w') = Some (length (heap w)) /\
  heap w' !! length (heap w) = Some (Pending []) /\
  take (length (heap w)) (heap w') = heap w /\
  (if connect_is_pending w
   then connectDeferred (fac w') = connectDeferred (fac w)
   else exists cd',
          connectDeferred (fac w') = Some cd' /\
          (length (heap w) < cd')%nat /\
          heap w' !! cd' = Some (Pending [CbAuthenticate])).
Proof.
  intros Hr Hv w'.
  pose proof (clientConnectionLost_unclean_eq w c reason Hr Hv) as E.
  set (w1 := mkWorld (set_connected false (fac w)) (heap w) (reactor w)
               (trace w ++ [EvLog LError "Connection lost. Reason: %s" [LStr reason]])).
  assert (Hv1 : valid_dref w1 (connectDeferred (fac w1))) by exact Hv.
  destruct (preConnect_effects w1 Hv1) as (_ & Hflag & Hexit & Hfresh & Htake & Hcd).
  assert (Ew : w' = mkWorld (fac (run preConnect w1)) (heap (run preConnect w1))
                      (reactor (run preConnect w1))
                      (trace (run preConnect w1) ++ [EvConnectorConnect c])).
  { subst w'. unfold run at 1. rewrite E. reflexivity. }
  split; [unfold outcome; rewrite E; reflexivity|].
  split; [rewrite Ew; simpl; apply (preConnect_connected w1)|].
  split; [apply (clientConnectionLost_retries (Some c) reason w)|].
  split; [apply (clientConnectionLost_reconnectTimer (Some c) reason w)|].
  split; [apply (clientConnectionLost_reactor (Some c) reason w)|].
  split.
  { rewrite Ew. apply emitted_app. simpl. rewrite preConnect_trace. simpl.
    rewrite <- app_assoc. reflexivity. }
  rewrite Ew. simpl.
  split; [exact Hflag|]. split; [exact Hexit|]. split; [exact Hfresh|].
  split; [exact Htake|]. exact Hcd.
Qed.

Lemma clientConnectionLost_unclean_reconnects_at_once_witness :
  let w' := run (clientConnectionLost (Some 7%nat) unclean) w_backing_off in
  outcome (clientConnectionLost (Some 7%nat) unclean) w_backing_off = Ok RNone /\
  connected (fac w') = false /\
  retries (fac w') = retries (fac w_backing_off) /\
  reconnectTimer (fac w') = reconnectTimer (fac w_backing_off) /\
  reactor w' = reactor w_backing_off /\
  emitted w_backing_off w' =
    [EvLog LError "Connection lost. Reason: %s" [LStr unclean]; EvConnectorConnect 7%nat] /\
  connectionRetry (fac w') = true /\
  exitDeferred (fac w') = Some (length (heap w_backing_off)) /\
  heap w' !! length (heap w_backing_off) = Some (Pending []) /\
  take (length (heap w_backing_off)) (heap w') = heap w_backing_off /\
  (if connect_is_pending w_backing_off
   then connectDeferred (fac w') = connectDeferred (fac w_backing_off)
   else exists cd',
          connectDeferred (fac w') = Some cd' /\
          (length (heap w_backing_off) < cd')%nat /\
          heap w' !! cd' = Some (Pending [CbAuthenticate])).
Proof.
  apply (clientConnectionLost_unclean_reconnects_at_once w_backing_off 7%nat unclean).
  - reflexivity.
  - vm_compute. lia.
Defined.

(** C3, as stated, fails: an unclean loss does not take the path of a failed
    connection attempt.  From the same world the failure handler increments
    the counter and arms a timer, whereas the loss handler leaves the counter
    alone and calls [connector.connect()] immediately; and it does so even
    while a reconnect timer is pending. *)
Lemma unclean_loss_skips_backoff :
  ~ (forall (w : World) (c : Connector) reason,
       contains "Connection was closed cleanly." reason = false ->
       valid_dref w (connectDeferred (fac w)) ->
       let w' := run (clientConnectionLost (Some c) reason) w in
       let w'' := run (clientConnectionFailed (Some c) reason) w in
       retries (fac w') = retries (fac w'') /\
       reactor w' = reactor w'' /\
       List.filter is_connect_attempt (emitted w w') = []) /\
  (let w' := run (clientConnectionLost (Some 7%nat) unclean) w_ready in
   retries (fac w_ready) = Some 0 /\ retries (fac w') = Some 0 /\
   reactor w' = [] /\
   List.filter is_connect_attempt (emitted w_ready w') = [EvConnectorConnect 7%nat]) /\
  (let w' := run (clientConnectionLost (Some 7%nat) unclean) w_backing_off in
   (active <$> reconnect_call w_backing_off) = Some true /\
   List.filter is_connect_attempt (emitted w_backing_off w') = [EvConnectorConnect 7%nat]).
Proof.
  split; [|split; vm_compute; repeat split; reflexivity].
  intros H.
  destruct (H w_ready 7%nat unclean eq_refl) as (Hret & _).
  - vm_compute. lia.
  - vm_compute in Hret. discriminate Hret.
Qed.

(** ** The list of declared queues *)

Lemma reConnect_queues c : preserves (fun w => queues (fac w)) (reConnect c).
Proof. frame. Qed.

Lemma timer_fires_queues t : preserves (fun w => queues (fac w)) (timer_fires t).
Proof. frame. Qed.

(** C4, as amended: neither [clientConnectionLost] nor
    [clientConnectionFailed] (nor the reconnection they start) touches the
    list of declared queues; the list is emptied by [_got_channel], that is
    during the next handshake, when the new channel has been obtained and
    before [_channel_open] sets [connected] again. *)
Theorem queues_cleared_when_channel_obtained :
  (forall c reason w,
     queues (fac (run (clientConnectionLost c reason) w)) = queues (fac w)) /\
  (forall c reason w,
     queues (fac (run (clientConnectionFailed c reason) w)) = queues (fac w)) /\
  (forall c w, queues (fac (run (reConnect c) w)) = queues (fac w)) /\
  (forall t w, queues (fac (run (timer_fires t) w)) = queues (fac w)) /\
  (forall ch w,
     outcome (_got_channel ch) w = Ok RNone /\
     queues (fac (run (_got_channel ch) w)) = [] /\
     connected (fac (run (_got_channel ch) w)) = connected (fac w)).
Proof.
  split; [|split; [|split; [|split]]].
  - intros c reason. apply clientConnectionLost_queues.
  - intros c reason. apply clientConnectionFailed_queues.
  - intros c. apply reConnect_queues.
  - intros t. apply timer_fires_queues.
  - intros ch w. repeat split.
Qed.

(** C4, as stated, fails: after an unclean loss on a ready factory that had
    declared a queue, the reconnection has been started
    ([connector.connect()] was called) and the list of declared queues still
    holds the queue. *)
Lemma queues_survive_connection_loss :
  ~ (forall (w : World) (c : Connector) reason,
       contains "Connection was closed cleanly." reason = false ->
       queues (fac (run (clientConnectionLost (Some c) reason) w)) = []) /\
  (let w' := run (clientConnectionLost (Some 7%nat) unclean) w_ready in
   connected (fac w_ready) = true /\
   queues (fac w') = ["orders"] /\
   List.filter is_connect_attempt (emitted w_ready w') = [EvConnectorConnect 7%nat]) /\
  queues (fac (run (clientConnectionFailed (Some 7%nat) "refused") w_ready)) = ["orders"].
Proof.
  split; [|split; vm_compute; repeat split; reflexivity].
  intros H. specialize (H w_ready 7%nat unclean eq_refl).
  vm_compute in H. discriminate H.
Qed.

(** ** The guards of [named_queue_declare] and [publish] *)

(** C5: while [connected] is false, [named_queue_declare] and [publish]
    return [None] at once, having only logged the error: they raise nothing,
    change nothing in the factory and call neither [queue_declare] nor
    [basic_publish]. *)
Theorem not_connected_guard
    (w : World) (args : list PyArg) (keys pargs : Kwargs) :
  connected (fac w) = false ->
  named_queue_declare args keys w =
    (Ok RNone,
     mkWorld (fac w) (heap w) (reactor w)
       (trace w ++
          [EvLog LError "AMQP Client is not connected, cannot queue_declare" []])) /\
  publish pargs w =
    (Ok RNone,
     mkWorld (fac w) (heap w) (reactor w)
       (trace w ++
          [EvLog LError "AMQP Client is not connected, cannot publish: %s"
             [LDict pargs]])) /\
  List.filter is_network_call (emitted w (run (named_queue_declare args keys) w)) = [] /\
  List.filter is_network_call (emitted w (run (publish pargs) w)) = [].
Proof.
  intros Hc.
  assert (Hd : named_queue_declare args keys w =
    (Ok RNone,
     mkWorld (fac w) (heap w) (reactor w)
       (trace w ++
          [EvLog LError "AMQP Client is not connected, cannot queue_declare" []]))).
  { unfold named_queue_declare. py_unfold. simpl. rewrite Hc. reflexivity. }
  assert (Hp : publish pargs w =
    (Ok RNone,
     mkWorld (fac w) (heap w) (reactor w)
       (trace w ++
          [EvLog LError "AMQP Client is not connected, cannot publish: %s"
             [LDict pargs]]))).
  { unfold publish. py_unfold. simpl. rewrite Hc. reflexivity. }
  split; [exact Hd|]. split; [exact Hp|].
  unfold run. rewrite Hd, Hp. simpl.
  split; erewrite emitted_app by reflexivity; reflexivity.
Qed.

Lemma not_connected_guard_witness :
  connected (fac w_pre) = false /\
  named_queue_declare [] orders_keys w_pre =
    (Ok RNone,
     mkWorld (fac w_pre) (heap w_pre) (reactor w_pre)
       (trace w_pre ++
          [EvLog LError "AMQP Client is not connected, cannot queue_declare" []])) /\
  publish orders_msg w_pre =
    (Ok RNone,
     mkWorld (fac w_pre) (heap w_pre) (reactor w_pre)
       (trace w_pre ++
          [EvLog LError "AMQP Client is not connected, cannot publish: %s"
             [LDict orders_msg]])) /\
  List.filter is_network_call
    (emitted w_pre (run (named_queue_declare [] orders_keys) w_pre)) = [] /\
  List.filter is_network_call (emitted w_pre (run (publish orders_msg) w_pre)) = [].
Proof.
  split; [reflexivity|].
  apply (not_connected_guard w_pre [] orders_keys orders_msg). reflexivity.
Defined.

Lemma find_declared_absent (qs : list string) (keys : Kwargs) (name : string) (w : World) :
  keys !! "queue" = Some (PStr name) ->
  ~ In name qs ->
  find_declared qs keys w = (Ok None, w).
Proof.
  intros Hk. induction qs as [|q rest IH]; intros Hn; simpl; [reflexivity|].
  rewrite Hk. simpl.
  destruct (String.eqb_spec q name) as [->|Hne].
  - exfalso. apply Hn. left. reflexivity.
  - apply IH. intros Hin. apply Hn. right. exact Hin.
Qed.

Lemma find_declared_present (qs : list string) (keys : Kwargs) (name : string) (w : World) :
  keys !! "queue" = Some (PStr name) ->
  In name qs ->
  find_declared qs keys w = (Ok (Some name), w).
Proof.
  intros Hk. induction qs as [|q rest IH]; intros Hin; simpl; [destruct Hin|].
  rewrite Hk. simpl.
  destruct (String.eqb_spec q name) as [->|Hne]; [reflexivity|].
  apply IH. destruct Hin as [Heq|Hin]; [contradiction|exact Hin].
Qed.

Lemma named_queue_declare_absent
    (w : World) (ch : Channel) (name : string) (args : list PyArg) (keys : Kwargs) :
  connected (fac w) = true ->
  chan (fac w) = Some ch ->
  keys !! "queue" = Some (PStr name) ->
  ~ In name (queues (fac w)) ->
  named_queue_declare args keys w =
    (Ok (RExternal (EvQueueDeclare ch args keys)),
     mkWorld (fac w) (heap w) (reactor w) (trace w ++ [EvQueueDeclare ch args keys])).
Proof.
  intros Hc Hch Hk Hn. unfold named_queue_declare.
  unfold mbind at 1, M_bind at 1, bind at 1, get_fac at 1. rewrite Hc. simpl.
  unfold mbind at 1, M_bind at 1, bind at 1.
  rewrite (find_declared_absent _ keys name w Hk Hn).
  py_unfold. simpl. rewrite Hch. reflexivity.
Qed.

Lemma named_queue_declare_present
    (w : World) (name : string) (args : list PyArg) (keys : Kwargs) :
  connected (fac w) = true ->
  keys !! "queue" = Some (PStr name) ->
  In name (queues (fac w)) ->
  named_queue_declare args keys w =
    (Ok RNone,
     mkWorld (fac w) (heap w) (reactor w)
       (trace w ++
          [EvLog LDebug
             "Queue [%s] is already declared, its okay .. no need to redeclare it"
             [LStr name]])).
Proof.
  intros Hc Hk Hin. unfold named_queue_declare.
  unfold mbind at 1, M_bind at 1, bind at 1, get_fac at 1. rewrite Hc. simpl.
  unfold mbind at 1, M_bind at 1, bind at 1.
  rewrite (find_declared_present _ keys name w Hk Hin).
  py_unfold. reflexivity.
Qed.

(** C6: on a connected factory that has not yet declared [name], a first
    [named_queue_declare] for [name] calls the channel's [queue_declare]; once
    the broker's reply for [name] has been recorded by [_queue_declared], a
    second [named_queue_declare] for [name] returns [None] after logging that
    the queue is already declared.  Over the three steps the channel's
    [queue_declare] is called exactly once. *)
Theorem named_queue_declare_twice
    (w : World) (ch : Channel) (name : string) (args : list PyArg) (keys : Kwargs) :
  connected (fac w) = true ->
  chan (fac w) = Some ch ->
  keys !! "queue" = Some (PStr name) ->
  ~ In name (queues (fac w)) ->
  let w1 := run (named_queue_declare args keys) w in
  let w2 := run (_queue_declared name) w1 in
  let w3 := run (named_queue_declare args keys) w2 in
  outcome (named_queue_declare args keys) w = Ok (RExternal (EvQueueDeclare ch args keys)) /\
  outcome (named_queue_declare args keys) w2 = Ok RNone /\
  emitted w2 w3 =
    [EvLog LDebug "Queue [%s] is already declared, its okay .. no need to redeclare it"
       [LStr name]] /\
  List.filter is_network_call (emitted w w3) = [EvQueueDeclare ch args keys] /\
  queues (fac w3) = queues (fac w) ++ [name].
Proof.
  intros Hc Hch Hk Hn. simpl.
  pose proof (named_queue_declare_absent w ch name args keys Hc Hch Hk Hn) as H1.
  assert (Hr1 : run (named_queue_declare args keys) w =
                mkWorld (fac w) (heap w) (reactor w)
                  (trace w ++ [EvQueueDeclare ch args keys])).
  { unfold run. rewrite H1. reflexivity. }
  rewrite Hr1. unfold outcome at 1. rewrite H1.
  set (w2 := run (_queue_declared name) _).
  assert (Hc2 : connected (fac w2) = true) by exact Hc.
  assert (Hin : In name (queues (fac w2))).
  { subst w2. simpl. apply in_or_app. right. left. reflexivity. }
  pose proof (named_queue_declare_present w2 name args keys Hc2 Hk Hin) as H3.
  unfold run, outcome. rewrite H3. simpl.
  split; [reflexivity|]. split; [reflexivity|].
  split; [apply emitted_app; reflexivity|].
  split.
  - erewrite emitted_app.
    2:{ subst w2. simpl. rewrite <- !app_assoc. reflexivity. }
    reflexivity.
  - reflexivity.
Qed.

Lemma named_queue_declare_twice_witness :
  let w := run (_channel_open VNone) (run (_got_channel 3%nat) w_pre) in
  let w1 := run (named_queue_declare [] orders_keys) w in
  let w2 := run (_queue_declared "orders") w1 in
  let w3 := run (named_queue_declare [] orders_keys) w2 in
  outcome (named_queue_declare [] orders_keys) w =
    Ok (RExternal (EvQueueDeclare 3%nat [] orders_keys)) /\
  outcome (named_queue_declare [] orders_keys) w2 = Ok RNone /\
  emitted w2 w3 =
    [EvLog LDebug "Queue [%s] is already declared, its okay .. no need to redeclare it"
       [LStr "orders"]] /\
  List.filter is_network_call (emitted w w3) = [EvQueueDeclare 3%nat [] orders_keys] /\
  queues (fac w3) = queues (fac w) ++ ["orders"].
Proof.
  apply (named_queue_declare_twice
           (run (_channel_open VNone) (run (_got_channel 3%nat) w_pre))
           3%nat "orders" [] orders_keys);
    try reflexivity.
  simpl. tauto.
Defined.

(** ** Disconnecting *)


(** [stopConnectionRetrying] leaves no reconnect timer pending. *)
Lemma stopConnectionRetrying_spec (w : World) :
  valid_tref w (reconnectTimer (fac w)) ->
  let w' := run stopConnectionRetrying w in
  outcome stopConnectionRetrying w = Ok RNone /\
  no_timer_pending w' /\
  connectionRetry (fac w') = false /\
  heap w' = heap w /\
  exitDeferred (fac w') = exitDeferred (fac w) /\
  client (fac w') = client (fac w) /\
  exists es, trace w' = trace w ++ es /\
             (es = [] \/ exists t, es = [EvTimerCancel t]).
Proof.
  destruct w as [f h r tr]. unfold valid_tref. simpl. intros Hv.
  unfold no_timer_pending, outcome, run, stopConnectionRetrying, timer_pending,
    timer_cancel.
  py_unfold. simpl.
  destruct (reconnectTimer f) as [t|] eqn:Ht; simpl in *.
  - destruct (lookup_lt_is_Some_2 r t Hv) as [x Hx]. rewrite Hx. simpl.
    destruct x as [dl arg cancelled fired]. unfold active. simpl.
    destruct cancelled, fired; simpl; rewrite ?Ht; simpl; rewrite ?Hx; simpl;
      rewrite ?Ht; simpl; rewrite ?Hx; simpl;
      repeat split; try reflexivity;
      first [ exists []; split; [symmetry; apply app_nil_r | left; reflexivity]
            | exists [EvTimerCancel t]; split; [reflexivity | right; eauto] ].
  - rewrite Ht. simpl. repeat split.
    exists []. split; [symmetry; apply app_nil_r | left; reflexivity].
Qed.

Lemma clientConnectionLost_clean_eq (w : World) c reason ed :
  contains "Connection was closed cleanly." reason = true ->
  exitDeferred (fac w) = Some ed ->
  heap w !! ed = Some (Pending []) ->
  clientConnectionLost c reason w =
    (Ok RNone,
     mkWorld (set_connected false (fac w)) (<[ed:=Fired VSelf]> (heap w)) (reactor w)
       (trace w ++ [EvFire ed VSelf; EvLog LInfo "Exiting." []])).
Proof.
  intros Hr He Hh. destruct w as [f h r tr]. simpl in *.
  unfold clientConnectionLost. rewrite Hr. simpl.
  unfold d_callback, fire. py_unfold. simpl. rewrite He. simpl. rewrite Hh. simpl.
  rewrite list_insert_insert_eq. rewrite <- app_assoc. reflexivity.
Qed.




(** ** The channel-ready deferred *)

(** Once the channel-ready deferred has been called, [preConnect] keeps it,
    and the next [_channel_open] raises on calling it again. *)
Lemma channelReady_called_stays (w : World) (d : dref) (v arg : Value) :
  channelReady (fac w) = CRDeferred d ->
  heap w !! d = Some (Fired v) ->
  channelReady (fac (run preConnect w)) = CRDeferred d /\
  outcome (_channel_open arg) w = Raise AlreadyCalledError.
Proof.
  intros Hc Hh. split.
  - destruct w as [f h r tr]. simpl in Hc. unfold run, preConnect.
    py_unfold. simpl. rewrite Hc. simpl.
    destruct (connectDeferred f) as [cd|]; simpl;
      repeat match goal with
             | |- context [?l !! ?i] => destruct (l !! i) as [[?|?]|]; simpl
             end;
      rewrite ?new_connectDeferred_eq; simpl; try rewrite Hc; reflexivity.
  - unfold outcome, _channel_open, d_callback, fire. py_unfold. simpl.
    rewrite Hc. simpl. rewrite Hh. reflexivity.
Qed.

(** C8: the code does not re-arm the channel-ready deferred.  After a first
    completed handshake, an unclean loss and the reconnection it starts leave
    [channelReady] pointing at the deferred that was already called, so the
    second [_channel_open] raises [AlreadyCalledError]; and after
    [disconnect], which stores [False], [preConnect] creates no new deferred
    and [_channel_open] raises [AttributeError]. *)
Theorem channelReady_not_rearmed :
  (channelReady (fac w_ready) = CRDeferred 1%nat /\
   heap w_ready !! 1%nat = Some (Fired VSelf)) /\
  (let w1 := run (_got_channel 4%nat)
               (run (clientConnectionLost (Some 7%nat) unclean) w_ready) in
   channelReady (fac w1) = CRDeferred 1%nat /\
   heap w1 !! 1%nat = Some (Fired VSelf) /\
   outcome (_channel_open VNone) w1 = Raise AlreadyCalledError /\
   fired_count 1 (emitted w_ready (run (_channel_open VNone) w1)) = 0%nat) /\
  (let w2 := run (_got_channel 4%nat)
               (run preConnect (run (disconnect None) w_ready)) in
   channelReady (fac w2) = CRFalse /\
   outcome (_channel_open VNone) w2 = Raise AttributeError).
Proof. vm_compute. repeat split; reflexivity. Qed.

(** ** [connect] *)

Lemma _connect_eq (w : World) :
  _connect w =
    (Ok (RDeferred (length (heap w))),
     mkWorld (fac w) (heap w ++ [Fired VLambdaPreConnect]) (reactor w)
       (trace w ++
          [EvLog LInfo "Establishing TCP connection to %s:%d"
             [LStr (host (config (fac w))); LInt (port (config (fac w)))];
           EvConnectTCP (host (config (fac w))) (port (config (fac w)));
           EvFire (length (heap w)) VLambdaPreConnect])).
Proof.
  unfold _connect, d_callback, fire. py_unfold. simpl.
  rewrite list_lookup_middle by reflexivity. simpl.
  rewrite !insert_app_r_alt by reflexivity.
  rewrite Nat.sub_diag. simpl. rewrite <- !app_assoc. reflexivity.
Qed.

(** With a connect deferred in place, a call to [connect()] starts one
    transport attempt ([reactor.connectTCP]), returns that deferred and leaves
    the failure counter as it was. *)
Theorem connect_returns_connectDeferred (w : World) (d : dref) :
  connectDeferred (fac w) = Some d ->
  let w' := run connect w in
  outcome connect w = Ok (RDeferred d) /\
  retries (fac w') = retries (fac w) /\
  connectDeferred (fac w') = Some d /\
  List.filter is_connect_attempt (emitted w w') =
    [EvConnectTCP (host (config (fac w))) (port (config (fac w)))].
Proof.
  intros Hd.
  assert (E : connect w = (Ok (RDeferred d), run _connect w)).
  { unfold connect, run. unfold mbind at 1, M_bind at 1, bind at 1.
    rewrite _connect_eq. py_unfold. simpl. rewrite Hd. reflexivity. }
  unfold run, outcome in *. rewrite E, _connect_eq. simpl.
  repeat split; try assumption.
  erewrite emitted_app by reflexivity. reflexivity.
Qed.

Lemma connect_returns_connectDeferred_witness :
  let w' := run connect w_stopped in
  outcome connect w_stopped = Ok (RDeferred 2%nat) /\
  retries (fac w') = retries (fac w_stopped) /\
  connectDeferred (fac w') = Some 2%nat /\
  List.filter is_connect_attempt (emitted w_stopped w') =
    [EvConnectTCP (host (config (fac w_stopped))) (port (config (fac w_stopped)))].
Proof.
  apply (connect_returns_connectDeferred w_stopped 2%nat). reflexivity.
Defined.

(** [connect()] neither resets the counter nor sets the flag: on a factory
    that has counted three failures and whose [connectionRetry] flag was
    cleared, it returns with the counter still at three and the flag still
    cleared. *)
Lemma connect_resets_nothing :
  ~ (forall (w : World),
       retries (fac (run connect w)) = Some 0 /\
       connectionRetry (fac (run connect w)) = true) /\
  (retries (fac w_stopped) = Some 3 /\
   connectionRetry (fac w_stopped) = false /\
   outcome connect w_stopped = Ok (RDeferred 2%nat) /\
   retries (fac (run connect w_stopped)) = Some 3 /\
   connectionRetry (fac (run connect w_stopped)) = false).
Proof.
  split; [|vm_compute; repeat split; reflexivity].
  intros H. destruct (H w_stopped) as [Hr _].
  vm_compute in Hr. discriminate Hr.
Qed.

(** C9: [connect()] does not run [preConnect].  [_connect] hands the function
    [lambda _: self.preConnect()] to its local deferred as a result and
    nothing applies it, so for every world a call to [connect()] changes no
    attribute of the factory: the counter is not reset and the flag is not
    set.  On a factory that has counted three failures and whose flag
    [stopConnectionRetrying] has cleared, [connect()] returns with the counter
    at three and the flag cleared; and after the retries were exhausted it
    returns the connect deferred that was already rejected, where
    [preConnect] would have installed a fresh one. *)
Theorem connect_does_not_run_preConnect :
  (forall w : World, fac (run connect w) = fac w) /\
  (retries (fac w_stopped) = Some 3 /\
   connectionRetry (fac w_stopped) = false /\
   outcome connect w_stopped = Ok (RDeferred 2%nat) /\
   retries (fac (run connect w_stopped)) = Some 3 /\
   connectionRetry (fac (run connect w_stopped)) = false) /\
  (let wx := run_calls five_failures (w_count 0) in
   outcome connect wx = Ok (RDeferred 2%nat) /\
   heap (run connect wx) !! 2%nat = Some (Fired (VFailure "refused")) /\
   connectDeferred (fac (run preConnect wx)) = Some 8%nat /\
   heap (run preConnect wx) !! 8%nat = Some (Pending [CbAuthenticate]) /\
   connectionRetry (fac (run preConnect w_stopped)) = true).
Proof.
  split; [|split].
  - intros w. unfold run, connect. unfold mbind at 1, M_bind at 1, bind at 1.
    rewrite _connect_eq. py_unfold. simpl.
    destruct (connectDeferred (fac w)); reflexivity.
  - vm_compute. repeat split.
  - vm_compute. repeat split.
Qed.


(** C10: on a freshly constructed factory [connect()] raises
    [AttributeError].  [_connect] logs, starts the TCP connection and calls
    its local deferred with the function [lambda _: self.preConnect()] as the
    result; the function is never applied, so no attribute of the factory
    changes and [connectDeferred] does not exist when [connect] reads it.
    After a call to [preConnect()], [connect()] returns the connect
    deferred. *)
Theorem connect_requires_preConnect (cfg : Config) :
  connect (__init__ cfg) =
    (Raise AttributeError,
     mkWorld (fac (__init__ cfg)) [Fired VLambdaPreConnect] []
       [EvLog LInfo "Establishing TCP connection to %s:%d"
          [LStr (host cfg); LInt (port cfg)];
        EvConnectTCP (host cfg) (port cfg);
        EvFire 0%nat VLambdaPreConnect]) /\
  connectDeferred (fac (__init__ cfg)) = None /\
  exitDeferred (fac (run connect (__init__ cfg))) = None /\
  outcome connect (run preConnect (__init__ cfg)) = Ok (RDeferred 2%nat).
Proof. repeat split. Qed.

(** ** Invariants of histories *)

(** A callback chain returns, and only adds to the trace. *)
Lemma run_callbacks_spec (cbs : list Callback) (v : Value) (w : World) :
  exists v' es,
    run_callbacks cbs v w =
      (Ok v', mkWorld (fac w) (heap w) (reactor w) (trace w ++ es)).
Proof.
  revert v w. induction cbs as [|cb rest IH]; intros v w; simpl.
  - exists v, []. rewrite app_nil_r. destruct w; reflexivity.
  - destruct cb. unfold mbind, M_bind, bind, run_callback.
    destruct (is_failure v).
    + apply IH.
    + unfold authenticate. py_unfold. simpl.
      destruct (client (fac w)) as [cl|]; simpl.
      * destruct (IH VNone (mkWorld (fac w) (heap w) (reactor w)
                              (trace w ++ [EvClientStart cl (username (config (fac w)))
                                             (password (config (fac w)))])))
          as (v' & es & ->).
        simpl. exists v', (EvClientStart cl (username (config (fac w)))
                             (password (config (fac w))) :: es).
        rewrite <- app_assoc. reflexivity.
      * apply IH.
Qed.

Lemma find_declared_spec (qs : list string) (keys : Kwargs) (w : World) :
  exists r, find_declared qs keys w = (r, w) /\ r <> Raise Stuck.
Proof.
  induction qs as [|q rest IH]; simpl.
  - exists (Ok None). split; [reflexivity | discriminate].
  - destruct (keys !! "queue") as [v|].
    + destruct (str_eq q v); [|exact IH].
      exists (Ok (Some q)). split; [reflexivity | discriminate].
    + exists (Raise KeyError). split; [reflexivity | discriminate].
Qed.

(** Unfolds the methods down to the primitives, keeping
    [new_connectDeferred], [run_callbacks] and [find_declared], which have
    equations of their own. *)
Ltac unfold_bodies :=
  repeat progress
    unfold clientConnectionFailed, clientConnectionLost, reConnect, preConnect,
      connect, _connect, disconnectAndDontRetryToConnect, stopConnectionRetrying,
      disconnect, timer_fires, timer_cancel, timer_pending, named_queue_declare,
      publish, _queue_declared, _got_channel, _channel_open, _authenticated,
      _channel_open_failed, _got_channel_failed, _authentication_failed,
      buildProtocol, d_callback, d_errback, fire, authenticate.

(** One step of case analysis on the run of a method: an equation for a
    recursive or composite part if there is one, else the innermost [match]. *)
Ltac break_match :=
  match goal with
  | |- context [new_connectDeferred ?w] => rewrite (new_connectDeferred_eq w)
  | |- context [run_callbacks ?c ?v ?w] =>
      let v' := fresh "v" in
      let es := fresh "es" in
      let E := fresh "E" in
      destruct (run_callbacks_spec c v w) as (v' & es & E); rewrite E; clear E
  | |- context [find_declared ?q ?k ?w] =>
      let r := fresh "r" in
      let E := fresh "E" in
      let N := fresh "N" in
      destruct (find_declared_spec q k w) as (r & E & N); rewrite E; clear E;
      destruct r as [[?|]|[]]
  | |- context [match ?x with _ => _ end] =>
      lazymatch x with
      | context [match _ with _ => _ end] => fail
      | _ => destruct x eqn:?
      end
  end.

(** Closes the bounds on references left by the case analysis. *)
Ltac wf_arith :=
  repeat match goal with
         | H : _ !! _ = None |- _ => apply lookup_ge_None in H
         | H : _ !! _ = Some _ |- _ => apply lookup_lt_Some in H
         end;
  repeat first [ progress rewrite length_app in *
               | progress rewrite length_insert in * ];
  simpl in *;
  repeat split; first [discriminate | congruence | lia].

(** Every call keeps the references valid and finds the objects it looks
    up. *)
Lemma exec_safe (c : Call) (w : World) :
  wf_World w -> possible c w ->
  outcome (exec c) w <> Raise Stuck /\ wf_World (run (exec c) w).
Proof.
  destruct w as [[rt cr con cfg chr cl qs ed cd ch rs] h r tr].
  unfold wf_World, valid_dref, valid_tref, possible, outcome, run.
  destruct c; simpl; intros (Hed & Hcd & Hchr & Hrt) Hpos;
    unfold_bodies; py_unfold; simpl;
    repeat (break_match; simpl in * ); simpl.
  all: wf_arith.
Qed.

(** Along every history the factory's references stay within the stores, and
    no call runs into a missing object. *)
Lemma reachable_wf (cfg : Config) (counter : option N) (w : World) :
  reachable cfg counter w -> wf_World w.
Proof.
  induction 1 as [|w c Hr IH Hp].
  - unfold wf_World, valid_dref, valid_tref. simpl. repeat split; lia.
  - apply (exec_safe c w IH Hp).
Qed.

Lemma reachable_never_stuck (cfg : Config) (counter : option N) (w : World) (c : Call) :
  reachable cfg counter w -> possible c w -> outcome (exec c) w <> Raise Stuck.
Proof.
  intros Hr Hp. apply (exec_safe c w (reachable_wf cfg counter w Hr) Hp).
Qed.

(** factory.py never assigns [self.retries] before incrementing it.  If the
    owner of the factory does not either, the attribute never comes into
    being, no delayed call is ever created, and every connection failure ends
    in [AttributeError]. *)
Lemma exec_no_counter (c : Call) (w : World) :
  no_counter w -> possible c w -> no_counter (run (exec c) w).
Proof.
  destruct w as [[rt cr con cfg chr cl qs ed cd ch rs] h r tr].
  unfold no_counter, possible, run. simpl. intros (-> & -> & ->).
  destruct c; simpl; intros Hpos; try lia;
    unfold_bodies; py_unfold; simpl;
    repeat (break_match; simpl in * ); simpl;
    repeat split; congruence.
Qed.

Lemma reachable_no_counter (cfg : Config) (w : World) :
  reachable cfg None w -> no_counter w.
Proof.
  induction 1 as [|w c Hr IH Hp].
  - repeat split.
  - apply (exec_no_counter c w IH Hp).
Qed.

Lemma clientConnectionFailed_without_counter
    (cfg : Config) (w : World) (c : option Connector) (reason : string) :
  reachable cfg None w ->
  outcome (clientConnectionFailed c reason) w = Raise AttributeError /\
  heap (run (clientConnectionFailed c reason) w) = heap w.
Proof.
  intros Hr. destruct (reachable_no_counter cfg w Hr) as (Hret & Hre & Hti).
  destruct w as [f h r tr]. simpl in *. subst r.
  unfold outcome, run, clientConnectionFailed, timer_pending. py_unfold. simpl.
  rewrite Hti. simpl. rewrite Hret. split; reflexivity.
Qed.

(** The sample worlds are worlds of histories in which the owner of the
    factory has stored a counter. *)
Lemma w_count_reachable (k : N) : reachable cfg1 (Some k) (w_count k).
Proof.
  change (w_count k)
    with (run (exec CPreConnect)
            (mkWorld (set_retries (Some k) (fac (__init__ cfg1))) [] [] [])).
  apply reach_call; [apply reach_init | exact I].
Qed.

Lemma w_ready_reachable : reachable cfg1 (Some 0) w_ready.
Proof.
  unfold w_ready.
  apply (reach_call _ _ _ (CQueueDeclared "orders")); [|exact I].
  apply (reach_call _ _ _ (CChannelOpen VNone)); [|exact I].
  apply (reach_call _ _ _ (CGotChannel 3%nat)); [|exact I].
  apply (reach_call _ _ _ (CBuildProtocol 1%nat)); [|exact I].
  apply w_count_reachable.
Qed.

Lemma w_backing_off_reachable : reachable cfg1 (Some 0) w_backing_off.
Proof.
  unfold w_backing_off.
  apply (reach_call _ _ _ (CClientConnectionFailed (Some 7%nat) "refused"));
    [apply w_count_reachable | exact I].
Qed.

(** With a base delay of one second and the counter starting at zero, five
    failures in a row arm timers of 2, 4, 8 and 16 seconds; the fifth calls
    the exit deferred of the last attempt and rejects the connect deferred. *)
Example five_failures_delays :
  let w := run_calls five_failures (w_count 0) in
  map dc_delay (reactor w) = [2; 4; 8; 16] /\
  retries (fac w) = Some 5 /\
  (exitDeferred (fac w) ≫= fun ed => heap w !! ed) = Some (Fired VSelf) /\
  (connectDeferred (fac w) ≫= fun cd => heap w !! cd) = Some (Fired (VFailure "refused")) /\
  outcome timer_pending w = Ok false.
Proof. vm_compute. repeat split; reflexivity. Qed.

(** ** More on the connection-failed handler *)

(** X1: while a reconnect timer is pending, a further connection failure is
    only logged and clears [connected]: the counter is not incremented, no
    second timer is created and no deferred is called. *)
Theorem clientConnectionFailed_guarded
    (w : World) (c : option Connector) (reason : string) :
  outcome timer_pending w = Ok true ->
  clientConnectionFailed c reason w =
    (Ok RNone,
     mkWorld (set_connected false (fac w)) (heap w) (reactor w)
       (trace w ++ [EvLog LError "Connection failed. Reason: %s" [LStr reason]])).
Proof.
  intros Hp. destruct w as [f h r tr]. simpl in *.
  unfold clientConnectionFailed.
  unfold mbind at 1, M_bind at 1, bind at 1, emit at 1. simpl.
  unfold mbind at 1, M_bind at 1, bind at 1, upd_fac at 1. simpl.
  unfold mbind at 1, M_bind at 1, bind at 1.
  rewrite timer_pending_pure, (timer_pending_frame _ (mkWorld f h r tr)) by reflexivity.
  rewrite Hp. reflexivity.
Qed.

Lemma clientConnectionFailed_guarded_witness :
  outcome timer_pending w_backing_off = Ok true /\
  clientConnectionFailed (Some 7%nat) "refused" w_backing_off =
    (Ok RNone,
     mkWorld (set_connected false (fac w_backing_off)) (heap w_backing_off)
       (reactor w_backing_off)
       (trace w_backing_off ++
          [EvLog LError "Connection failed. Reason: %s" [LStr "refused"]])).
Proof.
  split; [reflexivity|].
  apply (clientConnectionFailed_guarded w_backing_off (Some 7%nat) "refused").
  reflexivity.
Defined.

(** X2: in a history that starts from [__init__] and in which nobody has
    assigned [retries], every connection failure raises [AttributeError] at
    [self.retries += 1]: no deferred is called, no timer is created and the
    reactor holds no delayed call. *)
Theorem failure_without_counter_raises
    (cfg : Config) (w : World) (c : option Connector) (reason : string) :
  reachable cfg None w ->
  let w' := run (clientConnectionFailed c reason) w in
  outcome (clientConnectionFailed c reason) w = Raise AttributeError /\
  heap w' = heap w /\
  reactor w' = [] /\
  emitted w w' = [EvLog LError "Connection failed. Reason: %s" [LStr reason]].
Proof.
  intros Hr. destruct (reachable_no_counter cfg w Hr) as (Hret & Hre & Hti).
  destruct w as [f h r tr]. simpl in *. subst r.
  unfold outcome, run, clientConnectionFailed, timer_pending. py_unfold. simpl.
  rewrite Hti. simpl. rewrite Hret. simpl.
  repeat split. apply emitted_app. reflexivity.
Qed.

Lemma failure_without_counter_raises_witness :
  let w := run preConnect (__init__ cfg1) in
  let w' := run (clientConnectionFailed (Some 7%nat) "refused") w in
  outcome (clientConnectionFailed (Some 7%nat) "refused") w = Raise AttributeError /\
  heap w' = heap w /\
  reactor w' = [] /\
  emitted w w' = [EvLog LError "Connection failed. Reason: %s" [LStr "refused"]].
Proof.
  apply (failure_without_counter_raises cfg1 (run (exec CPreConnect)
           (mkWorld (set_retries None (fac (__init__ cfg1))) [] [] []))
           (Some 7%nat) "refused").
  apply reach_call; [apply reach_init | exact I].
Defined.

(** X3: once the connect deferred has been called (the retries were
    exhausted before), a further failure that passes the timer test still
    increments the counter and then raises [AlreadyCalledError] from
    [connectDeferred.errback]; the exit deferred is not called and no timer
    is created. *)
Theorem failure_after_exhaustion_raises
    (w : World) (c : option Connector) (reason : string) (k : N)
    (cd : dref) (v : Value) :
  retries (fac w) = Some k ->
  MAX_RETRIES <= k + 1 ->
  no_timer_pending w ->
  connectDeferred (fac w) = Some cd ->
  heap w !! cd = Some (Fired v) ->
  clientConnectionFailed c reason w =
    (Raise AlreadyCalledError,
     mkWorld (set_retries (Some (k + 1)) (set_connected false (fac w)))
       (heap w) (reactor w)
       (trace w ++
          [EvLog LError "Connection failed. Reason: %s" [LStr reason];
           EvLog LError "Reached maximum reconnect attempts, aborting." []])).
Proof.
  intros Hk Hge Hp Hcd Hh. destruct w as [f h r tr]. simpl in *.
  unfold clientConnectionFailed.
  unfold mbind at 1, M_bind at 1, bind at 1, emit at 1. simpl.
  unfold mbind at 1, M_bind at 1, bind at 1, upd_fac at 1. simpl.
  unfold mbind at 1, M_bind at 1, bind at 1.
  rewrite timer_pending_pure, (timer_pending_frame _ (mkWorld f h r tr)) by reflexivity.
  rewrite Hp.
  unfold d_errback, d_callback, fire.
  py_unfold. simpl. rewrite Hk.
  apply N.leb_le in Hge. rewrite Hge. simpl.
  rewrite Hcd. simpl. rewrite Hh. simpl.
  rewrite <- app_assoc. reflexivity.
Qed.

Lemma failure_after_exhaustion_raises_witness :
  let w := run_calls five_failures (w_count 0) in
  clientConnectionFailed (Some 7%nat) "refused" w =
    (Raise AlreadyCalledError,
     mkWorld (set_retries (Some (5 + 1)) (set_connected false (fac w)))
       (heap w) (reactor w)
       (trace w ++
          [EvLog LError "Connection failed. Reason: %s" [LStr "refused"];
           EvLog LError "Reached maximum reconnect attempts, aborting." []])).
Proof.
  apply (failure_after_exhaustion_raises (run_calls five_failures (w_count 0))
           (Some 7%nat) "refused" 5 2%nat (VFailure "refused"));
    first [reflexivity | vm_compute; discriminate].
Defined.

(** ** More on the loss of the transport *)

(** X4: a clean close never reconnects, whatever the failure counter and
    whether or not a reconnect timer is pending: the handler clears
    [connected], calls the exit deferred with the factory and logs; it makes
    no connection attempt, creates no timer and leaves the counter alone. *)
Theorem clientConnectionLost_clean_exits
    (w : World) (c : option Connector) (reason : string) (ed : dref) :
  contains "Connection was closed cleanly." reason = true ->
  exitDeferred (fac w) = Some ed ->
  heap w !! ed = Some (Pending []) ->
  let w' := run (clientConnectionLost c reason) w in
  outcome (clientConnectionLost c reason) w = Ok RNone /\
  connected (fac w') = false /\
  heap w' !! ed = Some (Fired VSelf) /\
  emitted w w' = [EvFire ed VSelf; EvLog LInfo "Exiting." []] /\
  retries (fac w') = retries (fac w) /\
  reconnectTimer (fac w') = reconnectTimer (fac w) /\
  reactor w' = reactor w.
Proof.
  intros Hr He Hh. unfold run, outcome.
  rewrite (clientConnectionLost_clean_eq w c reason ed Hr He Hh). simpl.
  repeat split.
  - apply list_lookup_insert_eq. eapply lookup_lt_Some. exact Hh.
  - apply emitted_app. reflexivity.
Qed.

Lemma clientConnectionLost_clean_exits_witness :
  let w' := run (clientConnectionLost (Some 7%nat) clean) w_backing_off in
  outcome (clientConnectionLost (Some 7%nat) clean) w_backing_off = Ok RNone /\
  connected (fac w') = false /\
  heap w' !! 0%nat = Some (Fired VSelf) /\
  emitted w_backing_off w' = [EvFire 0%nat VSelf; EvLog LInfo "Exiting." []] /\
  retries (fac w') = retries (fac w_backing_off) /\
  reconnectTimer (fac w') = reconnectTimer (fac w_backing_off) /\
  reactor w' = reactor w_backing_off.
Proof.
  apply (clientConnectionLost_clean_exits w_backing_off (Some 7%nat) clean 0%nat);
    reflexivity.
Defined.

(** X5: a clean close reported a second time, with no [preConnect] in
    between, raises [AlreadyCalledError]: the exit deferred was called by the
    first report and is not called again. *)
Theorem clientConnectionLost_clean_twice
    (w : World) (c c' : option Connector) (reason reason' : string) (ed : dref) :
  contains "Connection was closed cleanly." reason = true ->
  contains "Connection was closed cleanly." reason' = true ->
  exitDeferred (fac w) = Some ed ->
  heap w !! ed = Some (Pending []) ->
  let w1 := run (clientConnectionLost c reason) w in
  clientConnectionLost c' reason' w1 = (Raise AlreadyCalledError, w1).
Proof.
  intros Hr Hr' He Hh. unfold run.
  rewrite (clientConnectionLost_clean_eq w c reason ed Hr He Hh). simpl.
  unfold clientConnectionLost. rewrite Hr'. simpl.
  unfold d_callback, fire. py_unfold. simpl. rewrite He. simpl.
  rewrite list_lookup_insert_eq by (eapply lookup_lt_Some; exact Hh).
  reflexivity.
Qed.

Lemma clientConnectionLost_clean_twice_witness :
  let w1 := run (clientConnectionLost (Some 7%nat) clean) w_ready in
  clientConnectionLost (Some 7%nat) clean w1 = (Raise AlreadyCalledError, w1).
Proof.
  apply (clientConnectionLost_clean_twice w_ready (Some 7%nat) (Some 7%nat)
           clean clean 0%nat); reflexivity.
Defined.

(** X6: an unclean loss reported without a connector leaves the factory
    disconnected for good: it logs the loss and the missing connector, and
    neither reconnects nor calls the exit deferred nor prepares new
    deferreds. *)
Theorem clientConnectionLost_without_connector (w : World) (reason : string) :
  contains "Connection was closed cleanly." reason = false ->
  clientConnectionLost None reason w =
    (Ok RNone,
     mkWorld (set_connected false (fac w)) (heap w) (reactor w)
       (trace w ++
          [EvLog LError "Connection lost. Reason: %s" [LStr reason];
           EvLog LError "No connector to retry !" []])).
Proof.
  intros Hr. unfold clientConnectionLost, reConnect. rewrite Hr. simpl.
  py_unfold. simpl. rewrite <- app_assoc. reflexivity.
Qed.

Lemma clientConnectionLost_without_connector_witness :
  clientConnectionLost None unclean w_ready =
    (Ok RNone,
     mkWorld (set_connected false (fac w_ready)) (heap w_ready) (reactor w_ready)
       (trace w_ready ++
          [EvLog LError "Connection lost. Reason: %s" [LStr unclean];
           EvLog LError "No connector to retry !" []])).
Proof.
  apply (clientConnectionLost_without_connector w_ready unclean). reflexivity.
Defined.

(** ** [preConnect] and [stopConnectionRetrying] *)

(** X7: [preConnect] always installs a fresh, uncalled exit deferred and sets
    [connectionRetry]; it leaves every deferred that existed before as it
    was (so an exit deferred handed out earlier is abandoned, not called);
    and it keeps a connect deferred that is still waiting, while a missing or
    already called one is replaced by a fresh deferred whose callback is
    [authenticate]. *)
Theorem preConnect_deferreds (w : World) :
  valid_dref w (connectDeferred (fac w)) ->
  let w' := run preConnect w in
  outcome preConnect w = Ok RNone /\
  connectionRetry (fac w') = true /\
  exitDeferred (fac w') = Some (length (heap w)) /\
  heap w' !! length (heap w) = Some (Pending []) /\
  take (length (heap w)) (heap w') = heap w /\
  (if connect_is_pending w
   then connectDeferred (fac w') = connectDeferred (fac w)
   else exists cd',
          connectDeferred (fac w') = Some cd' /\
          (length (heap w) < cd')%nat /\
          heap w' !! cd' = Some (Pending [CbAuthenticate])).
Proof.
  destruct w as [[rt cr con cfg chr cl qs ed cd ch rs] h r tr].
  unfold valid_dref, connect_is_pending, outcome, run, preConnect. simpl.
  intros Hv.
  destruct cd as [cd|]; simpl in Hv.
  - destruct (lookup_lt_is_Some_2 h cd Hv) as [x Hx]. rewrite Hx.
    destruct chr, x as [cbs|v]; py_unfold; simpl;
      rewrite ?lookup_app_l by (rewrite ?length_app; simpl; lia);
      rewrite Hx; simpl; rewrite ?new_connectDeferred_eq; simpl;
      rewrite <- ?app_assoc;
      (split; [reflexivity|]); (split; [reflexivity|]); (split; [reflexivity|]);
      (split; [apply list_lookup_middle; reflexivity|]);
      (split; [apply take_app_length|]);
      try reflexivity;
      eexists; (split; [reflexivity|]);
      (split; [rewrite ?length_app; simpl; lia|]);
      rewrite ?app_assoc; apply list_lookup_middle;
      rewrite ?length_app; simpl; lia.
  - destruct chr; py_unfold; simpl; rewrite ?new_connectDeferred_eq; simpl;
      rewrite <- ?app_assoc;
      (split; [reflexivity|]); (split; [reflexivity|]); (split; [reflexivity|]);
      (split; [apply list_lookup_middle; reflexivity|]);
      (split; [apply take_app_length|]);
      eexists; (split; [reflexivity|]);
      (split; [rewrite ?length_app; simpl; lia|]);
      rewrite ?app_assoc; apply list_lookup_middle;
      rewrite ?length_app; simpl; lia.
Qed.

Lemma preConnect_deferreds_witness :
  let w := run_calls five_failures (w_count 0) in
  let w' := run preConnect w in
  outcome preConnect w = Ok RNone /\
  connectionRetry (fac w') = true /\
  exitDeferred (fac w') = Some (length (heap w)) /\
  heap w' !! length (heap w) = Some (Pending []) /\
  take (length (heap w)) (heap w') = heap w /\
  (if connect_is_pending w
   then connectDeferred (fac w') = connectDeferred (fac w)
   else exists cd',
          connectDeferred (fac w') = Some cd' /\
          (length (heap w) < cd')%nat /\
          heap w' !! cd' = Some (Pending [CbAuthenticate])).
Proof.
  apply (preConnect_deferreds (run_calls five_failures (w_count 0))).
  vm_compute. lia.
Defined.

Lemma preConnect_connectionRetry (w : World) :
  connectionRetry (fac (run preConnect w)) = true.
Proof.
  destruct w as [[rt cr con cfg chr cl qs ed cd ch rs] h r tr].
  unfold run, preConnect. py_unfold. simpl.
  repeat (break_match; simpl in * ); reflexivity.
Qed.

(** X8: [stopConnectionRetrying] cancels the reconnect timer if it is still
    active, so that no timer is pending afterwards, and clears
    [connectionRetry]; calling it again changes nothing and raises nothing. *)
Theorem stopConnectionRetrying_idempotent (w : World) :
  valid_tref w (reconnectTimer (fac w)) ->
  let w1 := run stopConnectionRetrying w in
  outcome stopConnectionRetrying w = Ok RNone /\
  no_timer_pending w1 /\
  connectionRetry (fac w1) = false /\
  (outcome timer_pending w = Ok true ->
   reconnectTimer (fac w1) = None /\
   (dc_cancelled <$> reconnect_call w) = Some false /\
   (dc_cancelled <$> (reconnectTimer (fac w) ≫= fun t => reactor w1 !! t)) = Some true) /\
  stopConnectionRetrying w1 = (Ok RNone, w1).
Proof.
  destruct w as [[rt cr con cfg chr cl qs ed cd ch rs] h r tr].
  unfold valid_tref, no_timer_pending, reconnect_call, outcome, run. simpl.
  intros Hv.
  unfold stopConnectionRetrying, timer_pending, timer_cancel. py_unfold. simpl.
  destruct rt as [t|]; simpl in *.
  - destruct (lookup_lt_is_Some_2 r t Hv) as [x Hx]. rewrite Hx. simpl.
    destruct x as [dl arg cancelled fired]. unfold active. simpl.
    destruct cancelled, fired; simpl; rewrite ?Hx; simpl;
      repeat split; try discriminate; try reflexivity;
      rewrite ?list_lookup_insert_eq by exact Hv; try reflexivity.
    all: rewrite Hx; reflexivity.
  - repeat split; discriminate.
Qed.

Lemma stopConnectionRetrying_idempotent_witness :
  let w1 := run stopConnectionRetrying w_backing_off in
  outcome stopConnectionRetrying w_backing_off = Ok RNone /\
  no_timer_pending w1 /\
  connectionRetry (fac w1) = false /\
  (outcome timer_pending w_backing_off = Ok true ->
   reconnectTimer (fac w1) = None /\
   (dc_cancelled <$> reconnect_call w_backing_off) = Some false /\
   (dc_cancelled <$> (reconnectTimer (fac w_backing_off) ≫= fun t => reactor w1 !! t))
     = Some true) /\
  stopConnectionRetrying w1 = (Ok RNone, w1).
Proof.
  apply (stopConnectionRetrying_idempotent w_backing_off). vm_compute. lia.
Defined.

Lemma stopConnectionRetrying_connectDeferred :
  preserves (fun w => connectDeferred (fac w)) stopConnectionRetrying.
Proof. frame. Qed.

(** X9: the [connectionRetry] flag is written but never read.  After
    [stopConnectionRetrying] has cleared it, an unclean loss still calls
    [connector.connect()] at once, and the [preConnect] on the way sets the
    flag again. *)
Theorem connectionRetry_is_not_consulted
    (w : World) (c : Connector) (reason : string) :
  valid_tref w (reconnectTimer (fac w)) ->
  valid_dref w (connectDeferred (fac w)) ->
  contains "Connection was closed cleanly." reason = false ->
  let w1 := run stopConnectionRetrying w in
  let w2 := run (clientConnectionLost (Some c) reason) w1 in
  connectionRetry (fac w1) = false /\
  outcome (clientConnectionLost (Some c) reason) w1 = Ok RNone /\
  emitted w1 w2 =
    [EvLog LError "Connection lost. Reason: %s" [LStr reason]; EvConnectorConnect c] /\
  connectionRetry (fac w2) = true.
Proof.
  intros Ht Hd Hr.
  destruct (stopConnectionRetrying_spec w Ht) as (_ & _ & Hflag & Hheap & _).
  simpl. set (w1 := run stopConnectionRetrying w) in *.
  assert (Hd1 : valid_dref w1 (connectDeferred (fac w1))).
  { unfold valid_dref. rewrite Hheap.
    subst w1. rewrite (stopConnectionRetrying_connectDeferred w). exact Hd. }
  pose proof (clientConnectionLost_unclean_eq w1 c reason Hr Hd1) as E.
  simpl in E.
  assert (E2 : run (clientConnectionLost (Some c) reason) w1 =
               snd (clientConnectionLost (Some c) reason w1)) by reflexivity.
  rewrite E2. unfold outcome. rewrite E. simpl.
  split; [exact Hflag|]. split; [reflexivity|]. split.
  - apply emitted_app. simpl. rewrite preConnect_trace. simpl.
    rewrite <- app_assoc. reflexivity.
  - apply preConnect_connectionRetry.
Qed.

Lemma connectionRetry_is_not_consulted_witness :
  let w1 := run stopConnectionRetrying w_ready in
  let w2 := run (clientConnectionLost (Some 7%nat) unclean) w1 in
  connectionRetry (fac w1) = false /\
  outcome (clientConnectionLost (Some 7%nat) unclean) w1 = Ok RNone /\
  emitted w1 w2 =
    [EvLog LError "Connection lost. Reason: %s" [LStr unclean];
     EvConnectorConnect 7%nat] /\
  connectionRetry (fac w2) = true.
Proof.
  apply (connectionRetry_is_not_consulted w_ready 7%nat unclean).
  - vm_compute. lia.
  - vm_compute. lia.
  - reflexivity.
Defined.

(** ** More on the declaration cache and the handshake *)

(** X10: on a connected factory with a channel, [named_queue_declare] for a
    queue name calls the channel's [queue_declare] exactly when the name is
    not in the list of declared queues; otherwise it makes no network call. *)
Theorem named_queue_declare_network_iff
    (w : World) (ch : Channel) (name : string) (args : list PyArg) (keys : Kwargs) :
  connected (fac w) = true ->
  chan (fac w) = Some ch ->
  keys !! "queue" = Some (PStr name) ->
  let calls :=
    List.filter is_network_call (emitted w (run (named_queue_declare args keys) w)) in
  (calls = [EvQueueDeclare ch args keys] <-> ~ In name (queues (fac w))) /\
  (calls = [] <-> In name (queues (fac w))).
Proof.
  intros Hc Hch Hk. simpl. unfold run.
  destruct (in_dec string_dec name (queues (fac w))) as [Hin|Hn].
  - rewrite (named_queue_declare_present w name args keys Hc Hk Hin). simpl.
    erewrite emitted_app by reflexivity. simpl.
    split; split; intros H; try discriminate; try contradiction; auto.
  - rewrite (named_queue_declare_absent w ch name args keys Hc Hch Hk Hn). simpl.
    erewrite emitted_app by reflexivity. simpl.
    split; split; intros H; try discriminate; try contradiction; auto.
Qed.

Lemma named_queue_declare_network_iff_witness :
  let calls :=
    List.filter is_network_call
      (emitted w_ready (run (named_queue_declare [] orders_keys) w_ready)) in
  (calls = [EvQueueDeclare 3%nat [] orders_keys] <-> ~ In "orders" (queues (fac w_ready))) /\
  (calls = [] <-> In "orders" (queues (fac w_ready))).
Proof.
  apply (named_queue_declare_network_iff w_ready 3%nat "orders" [] orders_keys);
    reflexivity.
Defined.

(** X11: without a ["queue"] keyword, [named_queue_declare] on a connected
    factory raises [KeyError] as soon as one queue has been declared, leaving
    the world as it was; while no queue has been declared yet it does not read
    the keyword and passes the call on to the channel. *)
Theorem named_queue_declare_missing_queue_key
    (w : World) (ch : Channel) (args : list PyArg) (keys : Kwargs) :
  connected (fac w) = true ->
  chan (fac w) = Some ch ->
  keys !! "queue" = None ->
  named_queue_declare args keys w =
    match queues (fac w) with
    | [] =>
        (Ok (RExternal (EvQueueDeclare ch args keys)),
         mkWorld (fac w) (heap w) (reactor w) (trace w ++ [EvQueueDeclare ch args keys]))
    | _ :: _ => (Raise KeyError, w)
    end.
Proof.
  intros Hc Hch Hk. unfold named_queue_declare.
  unfold mbind at 1, M_bind at 1, bind at 1, get_fac at 1. rewrite Hc. simpl.
  unfold mbind at 1, M_bind at 1, bind at 1.
  destruct (queues (fac w)) as [|q rest]; simpl.
  - py_unfold. simpl. rewrite Hch. reflexivity.
  - rewrite Hk. reflexivity.
Qed.

Lemma named_queue_declare_missing_queue_key_witness :
  named_queue_declare [] orders_msg w_ready =
    match queues (fac w_ready) with
    | [] =>
        (Ok (RExternal (EvQueueDeclare 3%nat [] orders_msg)),
         mkWorld (fac w_ready) (heap w_ready) (reactor w_ready)
           (trace w_ready ++ [EvQueueDeclare 3%nat [] orders_msg]))
    | _ :: _ => (Raise KeyError, w_ready)
    end.
Proof.
  apply (named_queue_declare_missing_queue_key w_ready 3%nat [] orders_msg);
    reflexivity.
Defined.

(** X12: the cache is filled by the broker's reply, not by the request: two
    declarations of the same new queue made before the first reply arrives
    both call the channel's [queue_declare], and the two replies record the
    name twice. *)
Theorem named_queue_declare_before_confirmation
    (w : World) (ch : Channel) (name : string) (args : list PyArg) (keys : Kwargs) :
  connected (fac w) = true ->
  chan (fac w) = Some ch ->
  keys !! "queue" = Some (PStr name) ->
  ~ In name (queues (fac w)) ->
  let w2 := run (named_queue_declare args keys) (run (named_queue_declare args keys) w) in
  let w4 := run (_queue_declared name) (run (_queue_declared name) w2) in
  List.filter is_network_call (emitted w w2) =
    [EvQueueDeclare ch args keys; EvQueueDeclare ch args keys] /\
  queues (fac w4) = queues (fac w) ++ [name; name].
Proof.
  intros Hc Hch Hk Hn. simpl.
  assert (Hr1 : run (named_queue_declare args keys) w =
                mkWorld (fac w) (heap w) (reactor w)
                  (trace w ++ [EvQueueDeclare ch args keys])).
  { unfold run. rewrite (named_queue_declare_absent w ch name args keys Hc Hch Hk Hn).
    reflexivity. }
  rewrite Hr1.
  set (w1 := mkWorld _ _ _ _).
  assert (Hr2 : run (named_queue_declare args keys) w1 =
                mkWorld (fac w) (heap w) (reactor w)
                  ((trace w ++ [EvQueueDeclare ch args keys]) ++
                   [EvQueueDeclare ch args keys])).
  { unfold run.
    rewrite (named_queue_declare_absent w1 ch name args keys Hc Hch Hk Hn).
    reflexivity. }
  rewrite Hr2. split.
  - erewrite emitted_app by (simpl; rewrite <- app_assoc; reflexivity). reflexivity.
  - simpl. rewrite <- app_assoc. reflexivity.
Qed.

Lemma named_queue_declare_before_confirmation_witness :
  let w := run (_channel_open VNone) (run (_got_channel 3%nat) w_pre) in
  let w2 := run (named_queue_declare [] orders_keys)
              (run (named_queue_declare [] orders_keys) w) in
  let w4 := run (_queue_declared "orders") (run (_queue_declared "orders") w2) in
  List.filter is_network_call (emitted w w2) =
    [EvQueueDeclare 3%nat [] orders_keys; EvQueueDeclare 3%nat [] orders_keys] /\
  queues (fac w4) = queues (fac w) ++ ["orders"; "orders"].
Proof.
  apply (named_queue_declare_before_confirmation
           (run (_channel_open VNone) (run (_got_channel 3%nat) w_pre))
           3%nat "orders" [] orders_keys);
    try reflexivity.
  simpl. tauto.
Defined.

(** X13: [named_queue_declare] and [publish] only read the factory: whatever
    they are given and whether they return or raise, they change no
    attribute, no deferred and no delayed call. *)
Theorem wrappers_only_read (w : World) (args : list PyArg) (keys pargs : Kwargs) :
  (let w' := run (named_queue_declare args keys) w in
   fac w' = fac w /\ heap w' = heap w /\ reactor w' = reactor w) /\
  (let w' := run (publish pargs) w in
   fac w' = fac w /\ heap w' = heap w /\ reactor w' = reactor w).
Proof.
  assert (H1 : preserves (fun w => (fac w, heap w, reactor w))
                 (named_queue_declare args keys)) by frame.
  assert (H2 : preserves (fun w => (fac w, heap w, reactor w)) (publish pargs))
    by frame.
  pose proof (H1 w) as E1. pose proof (H2 w) as E2. simpl in E1, E2.
  injection E1 as A1 B1 C1. injection E2 as A2 B2 C2.
  simpl. repeat split; assumption.
Qed.

(** X14: when the channel-ready deferred is waiting, the end of the
    handshake ([_got_channel] followed by [_channel_open]) stores the channel,
    empties the list of declared queues, sets [connected] and calls the
    channel-ready deferred with the factory, once. *)
Theorem handshake_completion (w : World) (ch : Channel) (d : dref) (v : Value) :
  channelReady (fac w) = CRDeferred d ->
  heap w !! d = Some (Pending []) ->
  let w1 := run (_got_channel ch) w in
  let w' := run (_channel_open v) w1 in
  outcome (_channel_open v) w1 = Ok RNone /\
  connected (fac w') = true /\
  chan (fac w') = Some ch /\
  queues (fac w') = [] /\
  heap w' !! d = Some (Fired VSelf) /\
  emitted w w' =
    [EvLog LInfo "Got channel" []; EvChannelOpen ch;
     EvLog LInfo "The channel is open" []; EvFire d VSelf].
Proof.
  intros Hc Hh. destruct w as [f h r tr]. simpl in *.
  unfold outcome, run, _got_channel, _channel_open, d_callback, fire.
  py_unfold. simpl. rewrite Hc. simpl. rewrite Hh. simpl.
  repeat split.
  - rewrite list_insert_insert_eq. apply list_lookup_insert_eq.
    eapply lookup_lt_Some. exact Hh.
  - apply emitted_app. simpl. rewrite <- !app_assoc. reflexivity.
Qed.

Lemma handshake_completion_witness :
  let w1 := run (_got_channel 3%nat) w_pre in
  let w' := run (_channel_open VNone) w1 in
  outcome (_channel_open VNone) w1 = Ok RNone /\
  connected (fac w') = true /\
  chan (fac w') = Some 3%nat /\
  queues (fac w') = [] /\
  heap w' !! 1%nat = Some (Fired VSelf) /\
  emitted w_pre w' =
    [EvLog LInfo "Got channel" []; EvChannelOpen 3%nat;
     EvLog LInfo "The channel is open" []; EvFire 1%nat VSelf].
Proof.
  apply (handshake_completion w_pre 3%nat 1%nat VNone); reflexivity.
Defined.

(** X15: [_channel_open] sets [connected] before it calls the channel-ready
    deferred, so the flag is set even when that call raises (the deferred was
    already called, or [channelReady] holds [None] or [False]). *)
Theorem channel_open_sets_connected_first (w : World) (v : Value) :
  connected (fac (run (_channel_open v) w)) = true.
Proof.
  destruct w as [[rt cr con cfg chr cl qs ed cd ch rs] h r tr].
  unfold run, _channel_open, d_callback, fire. py_unfold. simpl.
  repeat (break_match; simpl in * ); reflexivity.
Qed.

(** ** What histories never do *)

Lemma exec_channelReady (c : Call) (w : World) :
  channelReady (fac w) <> CRNone ->
  channelReady (fac (run (exec c) w)) = channelReady (fac w) \/
  channelReady (fac (run (exec c) w)) = CRFalse.
Proof.
  destruct w as [[rt cr con cfg chr cl qs ed cd ch rs] h r tr].
  unfold run. simpl. intros Hn.
  destruct chr; [contradiction | |];
    destruct c; simpl;
    unfold_bodies; py_unfold; simpl;
    repeat (break_match; simpl in * ); simpl; auto.
Qed.

Lemma run_calls_channelReady (cs : list Call) (w : World) :
  channelReady (fac w) <> CRNone ->
  channelReady (fac (run_calls cs w)) = channelReady (fac w) \/
  channelReady (fac (run_calls cs w)) = CRFalse.
Proof.
  revert w. induction cs as [|c rest IH]; intros w Hn; simpl; [left; reflexivity|].
  destruct (exec_channelReady c w Hn) as [E|E].
  - destruct (IH (run (exec c) w)) as [E'|E']; [congruence | left | right].
    + congruence.
    + exact E'.
  - destruct (IH (run (exec c) w)) as [E'|E']; [congruence | right | right];
      congruence.
Qed.

(** X16: the channel-ready slot is filled once.  Whatever calls follow, a
    deferred stored in [channelReady] is never replaced by another deferred:
    the slot keeps it or holds [False]; and once [disconnect] has stored
    [False], the slot holds [False] for ever, so that every later
    [_channel_open] raises [AttributeError]. *)
Theorem channelReady_is_never_renewed (w : World) (cs : list Call) (v : Value) :
  channelReady (fac w) <> CRNone ->
  let w' := run_calls cs w in
  (channelReady (fac w') = channelReady (fac w) \/ channelReady (fac w') = CRFalse) /\
  (channelReady (fac w) = CRFalse ->
   channelReady (fac w') = CRFalse /\
   outcome (_channel_open v) w' = Raise AttributeError).
Proof.
  intros Hn. simpl. split; [apply run_calls_channelReady; exact Hn|].
  intros Hf.
  assert (E : channelReady (fac (run_calls cs w)) = CRFalse).
  { destruct (run_calls_channelReady cs w Hn) as [E|E]; congruence. }
  split; [exact E|].
  unfold outcome, _channel_open. py_unfold. simpl. rewrite E. reflexivity.
Qed.

Lemma channelReady_is_never_renewed_witness :
  let w := run (disconnect None) w_ready in
  let w' := run_calls [CClientConnectionLost (Some 7%nat) clean; CPreConnect;
                       CConnect; CBuildProtocol 2%nat; CGotChannel 4%nat] w in
  (channelReady (fac w') = channelReady (fac w) \/ channelReady (fac w') = CRFalse) /\
  (channelReady (fac w) = CRFalse ->
   channelReady (fac w') = CRFalse /\
   outcome (_channel_open VNone) w' = Raise AttributeError).
Proof.
  apply (channelReady_is_never_renewed (run (disconnect None) w_ready)
           [CClientConnectionLost (Some 7%nat) clean; CPreConnect;
            CConnect; CBuildProtocol 2%nat; CGotChannel 4%nat] VNone).
  discriminate.
Defined.

Lemma exec_retries (c : Call) (w : World) (k : N) :
  retries (fac w) = Some k ->
  exists k', retries (fac (run (exec c) w)) = Some k' /\ k <= k' /\ k' <= k + 1.
Proof.
  destruct w as [[rt cr con cfg chr cl qs ed cd ch rs] h r tr].
  unfold run. simpl. intros ->.
  destruct c; simpl;
    unfold_bodies; py_unfold; simpl;
    repeat (break_match; simpl in * ); simpl;
    eexists; (split; [reflexivity | lia]).
Qed.

(** X17: no call resets the failure counter.  Along any sequence of calls,
    successful handshakes and [connect()] included, the counter never
    decreases, and it grows by at most one per call. *)
Theorem retries_never_reset (w : World) (cs : list Call) (k : N) :
  retries (fac w) = Some k ->
  exists k', retries (fac (run_calls cs w)) = Some k' /\
             k <= k' /\ k' <= k + N.of_nat (length cs).
Proof.
  revert w k. induction cs as [|c rest IH]; intros w k Hk.
  - exists k. simpl. split; [exact Hk | lia].
  - destruct (exec_retries c w k Hk) as (k1 & E1 & L1 & U1).
    destruct (IH (run (exec c) w) k1 E1) as (k2 & E2 & L2 & U2).
    exists k2. split; [exact E2|]. simpl length. lia.
Qed.

Lemma retries_never_reset_witness :
  exists k', retries (fac (run_calls
                             [CClientConnectionFailed (Some 7%nat) "refused";
                              CTimerFires 0%nat; CBuildProtocol 1%nat;
                              CGotChannel 3%nat; CChannelOpen VNone; CConnect]
                             (w_count 2))) = Some k' /\
             2 <= k' /\ k' <= 2 + N.of_nat 6.
Proof.
  apply (retries_never_reset (w_count 2)
           [CClientConnectionFailed (Some 7%nat) "refused";
            CTimerFires 0%nat; CBuildProtocol 1%nat;
            CGotChannel 3%nat; CChannelOpen VNone; CConnect] 2).
  reflexivity.
Defined.

(** ** Reconnect timers *)

(** What a call does to the delayed calls and to [reconnectTimer]: nothing;
    or, no timer being pending, it adds a delayed call and stores it; or it
    turns one delayed call into an inactive one, keeping [reconnectTimer] or
    clearing it if it pointed to that call. *)
Lemma exec_timers (c : Call) (w : World) :
  wf_World w -> possible c w ->
  let w' := run (exec c) w in
  (reactor w' = reactor w /\ reconnectTimer (fac w') = reconnectTimer (fac w)) \/
  (outcome timer_pending w = Ok false /\
   exists x, reactor w' = reactor w ++ [x] /\
             reconnectTimer (fac w') = Some (length (reactor w))) \/
  (exists t x', reactor w' = <[t:=x']> (reactor w) /\
                active x' = false /\
                (reconnectTimer (fac w') = reconnectTimer (fac w) \/
                 (reconnectTimer (fac w) = Some t /\ reconnectTimer (fac w') = None))).
Proof.
  destruct w as [[rt cr con cfg chr cl qs ed cd ch rs] h r tr].
  unfold wf_World, valid_dref, valid_tref, possible, outcome, run.
  destruct c; simpl; intros (Hed & Hcd & Hchr & Hrt) Hpos;
    unfold_bodies; py_unfold; simpl;
    repeat (break_match; simpl in * ); simpl;
    first
      [ left; split; reflexivity
      | right; left; split; [reflexivity | eexists; split; reflexivity]
      | right; right; do 2 eexists;
        split; [reflexivity
               | split; [unfold active; simpl; rewrite ?orb_true_r; reflexivity
                        | left; reflexivity]]
      | right; right; do 2 eexists;
        split; [reflexivity
               | split; [unfold active; simpl; rewrite ?orb_true_r; reflexivity
                        | right; split; reflexivity]]
      | exfalso; wf_arith ].
Qed.

Lemma no_timer_pending_inactive (w : World) :
  one_active_timer w -> outcome timer_pending w = Ok false ->
  forall t x, reactor w !! t = Some x -> active x = false.
Proof.
  destruct w as [f h r tr]. unfold one_active_timer, outcome, timer_pending.
  py_unfold. simpl. intros Hinv Hp t x Hx.
  destruct (active x) eqn:Ha; [|reflexivity].
  rewrite (Hinv t x Hx Ha) in Hp. simpl in Hp. rewrite Hx in Hp. simpl in Hp.
  congruence.
Qed.

Lemma exec_one_active_timer (c : Call) (w : World) :
  wf_World w -> possible c w -> one_active_timer w ->
  one_active_timer (run (exec c) w).
Proof.
  intros Hwf Hpos Hinv.
  destruct (exec_timers c w Hwf Hpos) as [(Er & Et)|[(Hp & x & Er & Et)|(t & x' & Er & Hx' & Ht)]];
    intros t1 y Hy Ha.
  - rewrite Et. rewrite Er in Hy. apply (Hinv t1 y Hy Ha).
  - rewrite Et. rewrite Er in Hy.
    destruct (decide (t1 < length (reactor w))%nat) as [Hlt|Hge].
    + rewrite lookup_app_l in Hy by exact Hlt.
      rewrite (no_timer_pending_inactive w Hinv Hp t1 y Hy) in Ha. discriminate.
    + assert (Hb : (t1 < length (reactor w ++ [x]))%nat)
        by (eapply lookup_lt_Some; exact Hy).
      rewrite length_app in Hb. simpl in Hb. f_equal. lia.
  - rewrite Er in Hy.
    destruct (decide (t = t1)) as [->|Hne].
    + assert (Hlt : (t1 < length (reactor w))%nat).
      { apply lookup_lt_Some in Hy. rewrite length_insert in Hy. exact Hy. }
      rewrite list_lookup_insert_eq in Hy by exact Hlt.
      injection Hy as <-. congruence.
    + rewrite list_lookup_insert_ne in Hy by exact Hne.
      pose proof (Hinv t1 y Hy Ha) as E.
      destruct Ht as [Ht|[Ht _]]; congruence.
Qed.

(** X18: reconnection timers never overlap.  In every history that starts
    from [__init__], at most one delayed call is active at any time, and it
    is the one held in [reconnectTimer]: a second timer is only created when
    none is pending, and cancelling or running a timer deactivates it. *)
Theorem at_most_one_active_timer (cfg : Config) (counter : option N) (w : World) :
  reachable cfg counter w ->
  forall (t t' : tref) (x x' : DelayedCall),
    reactor w !! t = Some x -> active x = true ->
    reactor w !! t' = Some x' -> active x' = true ->
    t = t' /\ reconnectTimer (fac w) = Some t.
Proof.
  intros Hr.
  assert (Hinv : one_active_timer w).
  { induction Hr as [|w c Hr IH Hp].
    - intros t x Hx. simpl in Hx. rewrite lookup_nil in Hx. discriminate.
    - apply exec_one_active_timer;
        [exact (reachable_wf cfg counter w Hr) | exact Hp | exact IH]. }
  intros t t' x x' Hx Ha Hx' Ha'.
  pose proof (Hinv t x Hx Ha) as E. pose proof (Hinv t' x' Hx' Ha') as E'.
  split; congruence.
Qed.

Lemma at_most_one_active_timer_witness :
  reactor w_backing_off !! 0%nat = Some (mkDelayedCall 2 (Some 7%nat) false false) /\
  active (mkDelayedCall 2 (Some 7%nat) false false) = true /\
  (0%nat = 0%nat /\ reconnectTimer (fac w_backing_off) = Some 0%nat).
Proof.
  split; [reflexivity|]. split; [reflexivity|].
  apply (at_most_one_active_timer cfg1 (Some 0) w_backing_off
           w_backing_off_reachable 0%nat 0%nat
           (mkDelayedCall 2 (Some 7%nat) false false)
           (mkDelayedCall 2 (Some 7%nat) false false));
    reflexivity.
Defined.

Lemma preConnect_backoff_state :
  preserves (fun w => (retries (fac w), reconnectTimer (fac w), config (fac w), reactor w))
    preConnect.
Proof. frame. Qed.

(** The reactor running the timer that the failure handler has just armed. *)
Lemma timer_fires_eq (w : World) (t : tref) (x : DelayedCall) (conn : Connector) :
  reactor w !! t = Some x ->
  active x = true ->
  dc_arg x = Some conn ->
  valid_dref w (connectDeferred (fac w)) ->
  let w0 := mkWorld (fac w) (heap w)
              (<[t:=mkDelayedCall (dc_delay x) (Some conn) (dc_cancelled x) true]>
                 (reactor w))
              (trace w) in
  let wp := run preConnect w0 in
  timer_fires t w =
    (Ok RNone, mkWorld (fac wp) (heap wp) (reactor wp) (trace wp ++ [EvConnectorConnect conn])).
Proof.
  intros Hx Ha Hc Hv w0 wp.
  unfold timer_fires. py_unfold. rewrite Hx. simpl. rewrite Ha. simpl.
  rewrite Hc. unfold reConnect.
  unfold mbind at 1, M_bind at 1, bind at 1. fold w0.
  assert (Hok : outcome preConnect w0 = Ok RNone) by (apply preConnect_ok; exact Hv).
  unfold outcome in Hok. subst wp. unfold run.
  destruct (preConnect w0) as [res wp]. simpl in Hok. subst res.
  reflexivity.
Qed.

(** X19: the backoff doubles.  When a failure arms a reconnect timer, the
    reactor runs it (which calls [connector.connect()]) and that attempt
    fails too while the counter is still below [MAX_RETRIES], the second
    timer is armed for twice the delay of the first. *)
Theorem backoff_doubles
    (w : World) (conn : Connector) (reason reason' : string) (k : N) :
  retries (fac w) = Some k ->
  k + 2 < MAX_RETRIES ->
  no_timer_pending w ->
  valid_dref w (connectDeferred (fac w)) ->
  let d := 2 ^ (k + 1) * reconnectOnConnectionFailureDelay (config (fac w)) in
  let w1 := run (clientConnectionFailed (Some conn) reason) w in
  let w2 := run (timer_fires (length (reactor w))) w1 in
  let w3 := run (clientConnectionFailed (Some conn) reason') w2 in
  (dc_delay <$> reconnect_call w1) = Some d /\
  emitted w1 w2 = [EvConnectorConnect conn] /\
  outcome (clientConnectionFailed (Some conn) reason') w2 = Ok RNone /\
  (dc_delay <$> reconnect_call w3) = Some (2 * d).
Proof.
  intros Hk Hlt Hp Hv. simpl.
  assert (Hlt1 : k + 1 < MAX_RETRIES) by lia.
  pose proof (clientConnectionFailed_retry w (Some conn) reason k Hk Hlt1 Hp) as E1.
  assert (R1 : run (clientConnectionFailed (Some conn) reason) w =
               snd (clientConnectionFailed (Some conn) reason w)) by reflexivity.
  rewrite R1, E1. simpl snd.
  set (x := mkDelayedCall _ _ _ _).
  set (w1 := mkWorld _ _ _ _).
  assert (Hx : reactor w1 !! length (reactor w) = Some x)
    by (apply list_lookup_middle; reflexivity).
  set (w0 := mkWorld (fac w1) (heap w1)
                (<[length (reactor w):=
                     mkDelayedCall (dc_delay x) (Some conn) (dc_cancelled x) true]>
                   (reactor w1))
                (trace w1)).
  assert (E2 : timer_fires (length (reactor w)) w1 =
               (Ok RNone,
                mkWorld (fac (run preConnect w0)) (heap (run preConnect w0))
                  (reactor (run preConnect w0))
                  (trace (run preConnect w0) ++ [EvConnectorConnect conn])))
    by exact (timer_fires_eq w1 (length (reactor w)) x conn Hx eq_refl eq_refl Hv).
  assert (R2 : run (timer_fires (length (reactor w))) w1 =
               snd (timer_fires (length (reactor w)) w1)) by reflexivity.
  rewrite R2, E2. simpl snd.
  pose proof (preConnect_backoff_state w0) as F. simpl in F.
  injection F as Fret Ftim Fcfg Frea.
  pose proof (preConnect_trace w0) as Ftr. simpl in Ftr.
  set (wp := run preConnect w0) in *.
  set (w2 := mkWorld (fac wp) (heap wp) (reactor wp) _).
  assert (Hk2 : retries (fac w2) = Some (k + 1)) by exact Fret.
  assert (Hlt2 : k + 1 + 1 < MAX_RETRIES) by lia.
  assert (Hp2 : no_timer_pending w2).
  { unfold no_timer_pending, outcome, timer_pending. py_unfold. simpl.
    rewrite Ftim. simpl. rewrite Frea.
    rewrite list_lookup_insert_eq
      by (rewrite length_app; simpl; lia).
    reflexivity. }
  pose proof (clientConnectionFailed_retry w2 (Some conn) reason' (k + 1) Hk2 Hlt2 Hp2)
    as E3.
  assert (R3 : run (clientConnectionFailed (Some conn) reason') w2 =
               snd (clientConnectionFailed (Some conn) reason' w2)) by reflexivity.
  rewrite R3. unfold outcome. rewrite E3. simpl.
  split; [|split; [|split]].
  - unfold reconnect_call. simpl.
    rewrite list_lookup_middle by reflexivity. reflexivity.
  - apply emitted_app. simpl. rewrite Ftr. reflexivity.
  - reflexivity.
  - unfold reconnect_call. simpl.
    rewrite list_lookup_middle by reflexivity. simpl.
    rewrite Fcfg. simpl. f_equal.
    replace (k + 1 + 1) with (N.succ (k + 1)) by lia.
    rewrite N.pow_succ_r'. lia.
Qed.

Lemma backoff_doubles_witness :
  let d := 2 ^ (1 + 1) * reconnectOnConnectionFailureDelay (config (fac (w_count 1))) in
  let w1 := run (clientConnectionFailed (Some 7%nat) "refused") (w_count 1) in
  let w2 := run (timer_fires (length (reactor (w_count 1)))) w1 in
  let w3 := run (clientConnectionFailed (Some 7%nat) "timeout") w2 in
  (dc_delay <$> reconnect_call w1) = Some d /\
  emitted w1 w2 = [EvConnectorConnect 7%nat] /\
  outcome (clientConnectionFailed (Some 7%nat) "timeout") w2 = Ok RNone /\
  (dc_delay <$> reconnect_call w3) = Some (2 * d).
Proof.
  apply (backoff_doubles (w_count 1) 7%nat "refused" "timeout" 1);
    first [reflexivity | vm_compute; lia].
Defined.

(** ** More on connecting and disconnecting *)

(** X20: [connect()] does not look at the state of the connection.  Called
    twice in a row it starts two TCP connections, and both calls return the
    same connect deferred. *)
Theorem connect_twice (w : World) (d : dref) :
  connectDeferred (fac w) = Some d ->
  let w1 := run connect w in
  let w2 := run connect w1 in
  outcome connect w = Ok (RDeferred d) /\
  outcome connect w1 = Ok (RDeferred d) /\
  List.filter is_connect_attempt (emitted w w2) =
    [EvConnectTCP (host (config (fac w))) (port (config (fac w)));
     EvConnectTCP (host (config (fac w))) (port (config (fac w)))] /\
  fac w2 = fac w.
Proof.
  intros Hd.
  assert (E : forall w0, connectDeferred (fac w0) = Some d ->
                         connect w0 = (Ok (RDeferred d), run _connect w0)).
  { intros w0 H0. unfold connect, run. unfold mbind at 1, M_bind at 1, bind at 1.
    rewrite _connect_eq. py_unfold. simpl. rewrite H0. reflexivity. }
  simpl.
  assert (R1 : run connect w =
               mkWorld (fac w) (heap w ++ [Fired VLambdaPreConnect]) (reactor w)
                 (trace w ++
                    [EvLog LInfo "Establishing TCP connection to %s:%d"
                       [LStr (host (config (fac w))); LInt (port (config (fac w)))];
                     EvConnectTCP (host (config (fac w))) (port (config (fac w)));
                     EvFire (length (heap w)) VLambdaPreConnect])).
  { unfold run at 1. rewrite (E w Hd). unfold run. rewrite _connect_eq. reflexivity. }
  rewrite R1. unfold outcome at 1. rewrite (E w Hd).
  set (w1 := mkWorld _ _ _ _).
  assert (Hd1 : connectDeferred (fac w1) = Some d) by exact Hd.
  unfold outcome, run. rewrite (E w1 Hd1). unfold run. simpl.
  rewrite (_connect_eq w1). simpl.
  repeat split.
  erewrite emitted_app by (subst w1; simpl; rewrite <- app_assoc; reflexivity).
  reflexivity.
Qed.

Lemma connect_twice_witness :
  let w1 := run connect w_pre in
  let w2 := run connect w1 in
  outcome connect w_pre = Ok (RDeferred 2%nat) /\
  outcome connect w1 = Ok (RDeferred 2%nat) /\
  List.filter is_connect_attempt (emitted w_pre w2) =
    [EvConnectTCP (host (config (fac w_pre))) (port (config (fac w_pre)));
     EvConnectTCP (host (config (fac w_pre))) (port (config (fac w_pre)))] /\
  fac w2 = fac w_pre.
Proof.
  apply (connect_twice w_pre 2%nat). reflexivity.
Defined.

Lemma disconnect_connectDeferred (reason : option string) :
  preserves (fun w => (connectDeferred (fac w), length (heap w))) (disconnect reason).
Proof. frame. Qed.

Lemma stopConnectionRetrying_valid_connect :
  preserves (fun w => (connectDeferred (fac w), length (heap w))) stopConnectionRetrying.
Proof. frame. Qed.

(** X21: [disconnectAndDontRetryToConnect] does not keep the factory from
    reconnecting.  If the transport then reports an unclean loss, the loss
    handler calls [connector.connect()] at once. *)
Theorem reconnect_after_disconnectAndDontRetryToConnect
    (w : World) (c : Connector) (reason : string) :
  valid_dref w (connectDeferred (fac w)) ->
  contains "Connection was closed cleanly." reason = false ->
  let w1 := run disconnectAndDontRetryToConnect w in
  let w2 := run (clientConnectionLost (Some c) reason) w1 in
  outcome (clientConnectionLost (Some c) reason) w1 = Ok RNone /\
  emitted w1 w2 =
    [EvLog LError "Connection lost. Reason: %s" [LStr reason]; EvConnectorConnect c] /\
  connectionRetry (fac w2) = true.
Proof.
  intros Hd Hr. simpl.
  set (w1 := run disconnectAndDontRetryToConnect w).
  assert (Hd1 : valid_dref w1 (connectDeferred (fac w1))).
  { assert (P : preserves (fun w => (connectDeferred (fac w), length (heap w)))
                  disconnectAndDontRetryToConnect) by frame.
    pose proof (P w) as E. simpl in E. injection E as E1 E2.
    unfold valid_dref. subst w1. rewrite E1, E2. exact Hd. }
  pose proof (clientConnectionLost_unclean_eq w1 c reason Hr Hd1) as E.
  simpl in E.
  assert (E2 : run (clientConnectionLost (Some c) reason) w1 =
               snd (clientConnectionLost (Some c) reason w1)) by reflexivity.
  rewrite E2. unfold outcome. rewrite E. simpl.
  split; [reflexivity|]. split.
  - apply emitted_app. simpl. rewrite preConnect_trace. simpl.
    rewrite <- app_assoc. reflexivity.
  - apply preConnect_connectionRetry.
Qed.

Lemma reconnect_after_disconnectAndDontRetryToConnect_witness :
  let w1 := run disconnectAndDontRetryToConnect w_ready in
  let w2 := run (clientConnectionLost (Some 7%nat) unclean) w1 in
  outcome (clientConnectionLost (Some 7%nat) unclean) w1 = Ok RNone /\
  emitted w1 w2 =
    [EvLog LError "Connection lost. Reason: %s" [LStr unclean];
     EvConnectorConnect 7%nat] /\
  connectionRetry (fac w2) = true.
Proof.
  apply (reconnect_after_disconnectAndDontRetryToConnect w_ready 7%nat unclean).
  - vm_compute. lia.
  - reflexivity.
Defined.

(** X22: the connect deferred carries [authenticate] as its only callback.
    When it is called with a value while a protocol instance has been built,
    the login is started on that instance with the configured credentials,
    once; when no protocol instance exists, the [AttributeError] of
    [authenticate] becomes the result of the deferred and nothing is raised
    to the caller. *)
Theorem connectDeferred_runs_authenticate (w : World) (cd : dref) (v : Value) :
  heap w !! cd = Some (Pending [CbAuthenticate]) ->
  is_failure v = false ->
  let w' := run (d_callback cd v) w in
  outcome (d_callback cd v) w = Ok tt /\
  fac w' = fac w /\
  match client (fac w) with
  | Some cl =>
      heap w' !! cd = Some (Fired VNone) /\
      emitted w w' =
        [EvFire cd v;
         EvClientStart cl (username (config (fac w))) (password (config (fac w)))]
  | None =>
      heap w' !! cd = Some (Fired (VRaised AttributeError)) /\
      emitted w w' = [EvFire cd v]
  end.
Proof.
  intros Hh Hv. destruct w as [f h r tr]. simpl in *.
  assert (Hlt : (cd < length h)%nat) by (eapply lookup_lt_Some; exact Hh).
  unfold outcome, run, d_callback, fire, authenticate. py_unfold. simpl.
  rewrite Hh. simpl. unfold run_callback, authenticate. py_unfold. simpl.
  rewrite Hv. simpl.
  destruct (client f) as [cl|]; simpl;
    (split; [reflexivity|]); (split; [reflexivity|]); split.
  - rewrite list_insert_insert_eq. apply list_lookup_insert_eq. exact Hlt.
  - apply emitted_app. simpl. rewrite <- app_assoc. reflexivity.
  - rewrite list_insert_insert_eq. apply list_lookup_insert_eq. exact Hlt.
  - apply emitted_app. reflexivity.
Qed.

Lemma connectDeferred_runs_authenticate_witness :
  let w := run (buildProtocol 1%nat) w_pre in
  let w' := run (d_callback 2%nat VSelf) w in
  outcome (d_callback 2%nat VSelf) w = Ok tt /\
  fac w' = fac w /\
  match client (fac w) with
  | Some cl =>
      heap w' !! 2%nat = Some (Fired VNone) /\
      emitted w w' =
        [EvFire 2%nat VSelf;
         EvClientStart cl (username (config (fac w))) (password (config (fac w)))]
  | None =>
      heap w' !! 2%nat = Some (Fired (VRaised AttributeError)) /\
      emitted w w' = [EvFire 2%nat VSelf]
  end.
Proof.
  apply (connectDeferred_runs_authenticate (run (buildProtocol 1%nat) w_pre)
           2%nat VSelf); reflexivity.
Defined.
